(** * Adaptive RAG: the workflow engine of [src/adaptive_rag.py]

    A shallow embedding of the state, the five node functions, the three
    branch predicates and the graph built by [AdaptiveRAG._build_graph],
    together with the collaborators they call ([retrieval.py], [graders.py],
    [router.py], [rag_chain.py], [config.py]).

    The language models, the vector store and the web-search tool are
    external oracles.  They are modelled as stateful functions over an
    abstract world [W]: a call may answer differently each time it is made,
    and it may raise. *)

From Stdlib Require Import String Ascii List ZArith Lia Bool.
Import ListNotations.
Open Scope string_scope.

(** ** Python exceptions and results *)

(** An instance of Python's [Exception] class: its class name and [str(e)].
    Interpreter-exit signals ([KeyboardInterrupt], [SystemExit]) are not
    failures of a call and are outside the model. *)
Record exn : Type := mkExn { exn_class : string; exn_str : string }.

Inductive result (A : Type) : Type :=
| Ok (a : A)
| Raise (e : exn).
Arguments Ok {A} a.
Arguments Raise {A} e.

Definition KeyError (k : string) : exn := mkExn "KeyError" k.
Definition ValueError (m : string) : exn := mkExn "ValueError" m.
Definition TypeError (m : string) : exn := mkExn "TypeError" m.
Definition AttributeError (m : string) : exn := mkExn "AttributeError" m.
Definition UnboundLocalError (m : string) : exn := mkExn "UnboundLocalError" m.
Definition GraphRecursionError (m : string) : exn := mkExn "GraphRecursionError" m.

(** ** A state-and-exception monad over the world of the oracles *)

Definition M (W A : Type) : Type := W -> result A * W.

Definition ret {W A : Type} (a : A) : M W A := fun w => (Ok a, w).

Definition raise {W A : Type} (e : exn) : M W A := fun w => (Raise e, w).

Definition bind {W A B : Type} (m : M W A) (f : A -> M W B) : M W B :=
  fun w =>
    match m w with
    | (Ok a, w') => f a w'
    | (Raise e, w') => (Raise e, w')
    end.

(** [try: body / except Exception as e: handler e]. *)
Definition try_except {W A : Type} (body : M W A) (handler : exn -> M W A) : M W A :=
  fun w =>
    match body w with
    | (Ok a, w') => (Ok a, w')
    | (Raise e, w') => handler e w'
    end.

Notation "x <- c ;; k" := (bind c (fun x => k))
  (at level 61, c at next level, right associativity).

(** [d[k]] on a key that may be absent, and [d.get(k, default)]. *)
Definition getitem {W A : Type} (k : string) (o : option A) : M W A :=
  match o with
  | Some a => ret a
  | None => raise (KeyError k)
  end.

Definition get {A : Type} (o : option A) (default : A) : A :=
  match o with
  | Some a => a
  | None => default
  end.

(** ** Data model *)

(** [langchain_core.documents.Document]: the text and its metadata. *)
Record Document : Type := mkDocument {
  page_content : string;
  metadata : list (string * string)
}.

(** [Document(page_content=s)]. *)
Definition Document_of (s : string) : Document := mkDocument s [].

(** [models.GraphState], a [TypedDict]: every key may be absent.  The same
    shape serves for the partial dictionaries the node functions return. *)
Record GraphState : Type := mkState {
  question : option string;
  generation : option string;
  documents : option (list Document);
  retry_count : option Z
}.

Definition or_else {A : Type} (new old : option A) : option A :=
  match new with
  | Some a => Some a
  | None => old
  end.

(** The graph writes the keys a node returned over the state and keeps the
    others. *)
Definition merge (st upd : GraphState) : GraphState :=
  {| question := or_else (question upd) (question st);
     generation := or_else (generation upd) (generation st);
     documents := or_else (documents upd) (documents st);
     retry_count := or_else (retry_count upd) (retry_count st) |}.

(** The values the web-search tool may hand back, as far as
    [WebSearcher.search] tells them apart. *)
#[local] Unset Elimination Schemes.
Inductive pyval : Type :=
| PStr (s : string)
| PList (l : list pyval)
| PDict (items : list (string * pyval))
| PObj (repr : string).
#[local] Set Elimination Schemes.

(** [config.Config]: the three keys read from the environment. *)
Record Config : Type := mkConfig {
  GROQ_API_KEY : option string;
  OPENAI_API_KEY : option string;
  TAVILY_API_KEY : option string
}.

(** ** Collaborators *)

Record Collaborators (W : Type) : Type := mkCollaborators {
  (** [QuestionRouter.router.invoke(...).datasource] *)
  router_invoke : string -> M W string;
  (** [GroqDocumentRetriever.retriever]: [None] until a vector store is
      created or loaded. *)
  retriever_invoke : option (string -> M W (list Document));
  (** [WebSearcher.web_search_tool.invoke] *)
  web_search_tool_invoke : string -> M W pyval;
  (** [RAGChain.chain.invoke], on context and question *)
  chain_invoke : string -> string -> M W string;
  (** the three graders' [grader.invoke(...).binary_score] *)
  document_grader_invoke : string -> string -> M W string;
  hallucination_grader_invoke : string -> string -> M W string;
  answer_grader_invoke : string -> string -> M W string;
  (** [str(x)] on a value that is not a string *)
  py_repr : pyval -> string
}.
Arguments router_invoke {W} c _ _.
Arguments retriever_invoke {W} c.
Arguments web_search_tool_invoke {W} c _ _.
Arguments chain_invoke {W} c _ _ _.
Arguments document_grader_invoke {W} c _ _ _.
Arguments hallucination_grader_invoke {W} c _ _ _.
Arguments answer_grader_invoke {W} c _ _ _.
Arguments py_repr {W} c _.

Definition newline : string := String (ascii_of_nat 10) EmptyString.

(** Python's truth value of an optional string: [None] and [""] are false. *)
Definition truthy (o : option string) : bool :=
  match o with
  | Some s => negb (s =? "")
  | None => false
  end.

(** [dict.get(k, default)] on the items of a dictionary. *)
Fixpoint dict_get (items : list (string * pyval)) (k : string) (default : pyval) : pyval :=
  match items with
  | [] => default
  | (k', v) :: rest => if k' =? k then v else dict_get rest k default
  end.

(** [sep.join(xs)]: every element must be a string. *)
Fixpoint str_join {W : Type} (sep : string) (xs : list pyval) : M W string :=
  match xs with
  | [] => ret ""
  | x :: rest =>
      match x with
      | PStr s =>
          match rest with
          | [] => ret s
          | _ => tl <- str_join sep rest ;; ret (s ++ sep ++ tl)
          end
      | _ => raise (TypeError "sequence item: expected str instance")
      end
  end.

Section Program.

Context {W : Type}.
Variable C : Collaborators W.

(** *** [config.py] *)

Definition Config_validate (cfg : Config) : M W bool :=
  if negb (truthy (GROQ_API_KEY cfg)) then
    raise (ValueError "GROQ_API_KEY environment variable is required")
  else if negb (truthy (TAVILY_API_KEY cfg)) then
    raise (ValueError "TAVILY_API_KEY environment variable is required")
  else ret true.

(** *** [router.py], [groq_retrieval.py], [rag_chain.py], [graders.py] *)

Definition QuestionRouter_route (q : string) : M W string :=
  router_invoke C q.

Definition GroqDocumentRetriever_retrieve (q : string) : M W (list Document) :=
  match retriever_invoke C with
  | None =>
      raise (ValueError
        "Vectorstore not initialized. Call create_vectorstore() or load_vectorstore() first.")
  | Some invoke => invoke q
  end.

Definition RAGChain_format_docs (docs : list Document) : string :=
  String.concat (newline ++ newline) (map page_content docs).

Definition RAGChain_generate (q : string) (docs : list Document) : M W string :=
  let context := RAGChain_format_docs docs in
  chain_invoke C context q.

Definition DocumentGrader_grade (q document : string) : M W string :=
  document_grader_invoke C q document.

Definition HallucinationGrader_grade (docs generation : string) : M W string :=
  hallucination_grader_invoke C docs generation.

Definition AnswerGrader_grade (q generation : string) : M W string :=
  answer_grader_invoke C q generation.

(** *** [retrieval.py]: [WebSearcher.search] *)

Definition py_str (v : pyval) : string :=
  match v with
  | PStr s => s
  | _ => py_repr C v
  end.

(** [d.get("content", d.get("text", str(d)))]; only a dictionary has
    [get]. *)
Definition content_of (d : pyval) : M W pyval :=
  match d with
  | PDict items =>
      ret (dict_get items "content" (dict_get items "text" (PStr (py_str d))))
  | _ => raise (AttributeError "object has no attribute 'get'")
  end.

Fixpoint map_content (docs : list pyval) : M W (list pyval) :=
  match docs with
  | [] => ret []
  | d :: rest =>
      c <- content_of d ;;
      cs <- map_content rest ;;
      ret (c :: cs)
  end.

(** The body of the [try] block. *)
Definition WebSearcher_search_body (q : string) : M W Document :=
  docs <- web_search_tool_invoke C q ;;
  web_results <-
    match docs with
    | PList l =>
        match l with
        | PDict _ :: _ =>
            cs <- map_content l ;;
            str_join newline cs
        | _ => str_join newline (map (fun d => PStr (py_str d)) l)
        end
    | PStr s => ret s
    | _ => ret (py_str docs)
    end ;;
  ret (Document_of web_results).

Definition WebSearcher_search (q : string) : M W Document :=
  try_except (WebSearcher_search_body q)
    (fun e => ret (Document_of ("Web search failed: " ++ exn_str e))).

(** *** [adaptive_rag.py]: the node functions *)

Definition _retrieve (state : GraphState) : M W GraphState :=
  q <- getitem "question" (question state) ;;
  docs <- GroqDocumentRetriever_retrieve q ;;
  ret {| question := Some q; generation := None;
         documents := Some docs; retry_count := None |}.

(** The [for doc in documents] loop; [filtered_docs.append(doc)] adds at
    the end. *)
Fixpoint grade_loop (q : string) (docs filtered_docs : list Document)
  : M W (list Document) :=
  match docs with
  | [] => ret filtered_docs
  | doc :: rest =>
      score <- DocumentGrader_grade q (page_content doc) ;;
      if score =? "yes" then grade_loop q rest (filtered_docs ++ [doc])
      else grade_loop q rest filtered_docs
  end.

Definition _grade_documents (state : GraphState) : M W GraphState :=
  q <- getitem "question" (question state) ;;
  docs <- getitem "documents" (documents state) ;;
  filtered_docs <- grade_loop q docs [] ;;
  ret {| question := Some q; generation := None;
         documents := Some filtered_docs; retry_count := None |}.

Definition _generate (state : GraphState) : M W GraphState :=
  q <- getitem "question" (question state) ;;
  docs <- getitem "documents" (documents state) ;;
  g <- RAGChain_generate q docs ;;
  ret {| question := Some q; generation := Some g;
         documents := Some docs; retry_count := None |}.

Definition _web_search (state : GraphState) : M W GraphState :=
  q <- getitem "question" (question state) ;;
  doc <- WebSearcher_search q ;;
  ret {| question := Some q; generation := None;
         documents := Some [doc]; retry_count := None |}.

(** The f-string of [_transform_query]; the function binds it to
    [transformed_question] and returns [question]. *)
Definition transformed_question (q : string) : string :=
  "Please provide more details about: " ++ q.

Definition _transform_query (state : GraphState) : M W GraphState :=
  q <- getitem "question" (question state) ;;
  let retry := (get (retry_count state) 0 + 1)%Z in
  let _unused := transformed_question q in
  ret {| question := Some q; generation := None;
         documents := Some (get (documents state) []);
         retry_count := Some retry |}.

(** *** [adaptive_rag.py]: the branch predicates *)

(** A label, or Python's [None] when the function falls off its end. *)
Definition _route_question (state : GraphState) : M W (option string) :=
  q <- getitem "question" (question state) ;;
  source <- QuestionRouter_route q ;;
  if source =? "web_search" then ret (Some "web_search")
  else if source =? "vectorstore" then ret (Some "vectorstore")
  else ret None.

Definition _decide_to_generate (state : GraphState) : M W (option string) :=
  filtered_documents <- getitem "documents" (documents state) ;;
  match filtered_documents with
  | [] => ret (Some "transform_query")
  | _ => ret (Some "generate")
  end.

Definition _grade_generation_v_documents_and_question (state : GraphState)
  : M W (option string) :=
  q <- getitem "question" (question state) ;;
  docs <- getitem "documents" (documents state) ;;
  g <- getitem "generation" (generation state) ;;
  let docs_text := String.concat newline (map page_content docs) in
  score <- HallucinationGrader_grade docs_text g ;;
  let retry := get (retry_count state) 0%Z in
  if score =? "yes" then
    score <- AnswerGrader_grade q g ;;
    if score =? "yes" then ret (Some "useful")
    else if (3 <=? retry)%Z then ret (Some "useful")
    else ret (Some "not useful")
  else ret (Some "not supported").

End Program.

(** ** The graph of [_build_graph] and its execution *)

Inductive node : Type :=
| web_search
| retrieve
| grade_documents
| generate
| transform_query.

Inductive target : Type :=
| Node (n : node)
| END.

Definition node_eq_dec (a b : node) : {a = b} + {a <> b}.
Proof. decide equality. Defined.

(** The path maps handed to [add_conditional_edges]. *)
Definition route_path_map : list (string * target) :=
  [("web_search", Node web_search); ("vectorstore", Node retrieve)].

Definition decide_path_map : list (string * target) :=
  [("transform_query", Node transform_query); ("generate", Node generate)].

Definition grade_path_map : list (string * target) :=
  [("not supported", Node generate); ("useful", END);
   ("not useful", Node transform_query)].

Fixpoint path_lookup (path_map : list (string * target)) (label : string)
  : option target :=
  match path_map with
  | [] => None
  | (k, t) :: rest => if k =? label then Some t else path_lookup rest label
  end.

(** The graph looks the value a branch function returned up in the path
    map, [path_map[label]]; a value that is no key of it, [None] among them,
    raises [KeyError]. *)
Definition resolve {W : Type} (path_map : list (string * target))
  (label : option string) : M W target :=
  match label with
  | None => raise (KeyError "None")
  | Some l =>
      match path_lookup path_map l with
      | Some t => ret t
      | None => raise (KeyError l)
      end
  end.

(** How an execution ended: at [END], with an exception, or stopped by the
    step budget before the node [pending] ran. *)
Inductive status : Type :=
| Finished
| Failed (e : exn)
| Interrupted (pending : node).

(** One execution: the stream of [(node, update)] events in order, the
    state the graph holds at the end, and how it ended. *)
Record execution : Type := mkExecution {
  events : list (node * GraphState);
  final : GraphState;
  outcome : status
}.

Definition after_event (ev : node * GraphState) (ex : execution) : execution :=
  {| events := ev :: events ex; final := final ex; outcome := outcome ex |}.

(** The state after a stream of updates was written over [st]. *)
Definition replay (st : GraphState) (evs : list (node * GraphState)) : GraphState :=
  fold_left (fun s ev => merge s (snd ev)) evs st.

(** [retry_count] as every reader in the program sees it. *)
Definition retries (st : GraphState) : Z := get (retry_count st) 0%Z.

Definition trace (ex : execution) : list node := map fst (events ex).

Section Graph.

Context {W : Type}.
Variable C : Collaborators W.

Definition node_function (n : node) : GraphState -> M W GraphState :=
  match n with
  | web_search => _web_search C
  | retrieve => _retrieve C
  | grade_documents => _grade_documents C
  | generate => _generate C
  | transform_query => _transform_query
  end.

(** The edge leaving a node, evaluated on the state after the node's
    update. *)
Definition next_target (n : node) (st : GraphState) : M W target :=
  match n with
  | web_search => ret (Node generate)
  | retrieve => ret (Node grade_documents)
  | grade_documents =>
      label <- _decide_to_generate st ;; resolve decide_path_map label
  | transform_query => ret (Node generate)
  | generate =>
      label <- _grade_generation_v_documents_and_question C st ;;
      resolve grade_path_map label
  end.

(** The conditional edge out of [START]. *)
Definition start_target (st : GraphState) : M W target :=
  label <- _route_question C st ;; resolve route_path_map label.

(** One step: run the node, write its update, choose the next node.  The
    step yields its event only if all of it succeeds. *)
Definition step (n : node) (st : GraphState) : M W (GraphState * GraphState * target) :=
  upd <- node_function n st ;;
  let st' := merge st upd in
  t <- next_target n st' ;;
  ret (upd, st', t).

(** Run from node [n]; [limit] bounds the number of steps, as the graph
    library's recursion limit does. *)
Fixpoint run (limit : nat) (n : node) (st : GraphState) (w : W) : execution * W :=
  match limit with
  | O => ({| events := []; final := st; outcome := Interrupted n |}, w)
  | S limit' =>
      match step n st w with
      | (Raise e, w') => ({| events := []; final := st; outcome := Failed e |}, w')
      | (Ok (upd, st', END), w') =>
          ({| events := [(n, upd)]; final := st'; outcome := Finished |}, w')
      | (Ok (upd, st', Node n'), w') =>
          let (ex, w'') := run limit' n' st' w' in
          (after_event (n, upd) ex, w'')
      end
  end.

(** [self.app] applied to [inputs]. *)
Definition app (limit : nat) (inputs : GraphState) (w : W) : execution * W :=
  match start_target inputs w with
  | (Raise e, w') => ({| events := []; final := inputs; outcome := Failed e |}, w')
  | (Ok END, w') => ({| events := []; final := inputs; outcome := Finished |}, w')
  | (Ok (Node n), w') => run limit n inputs w'
  end.

(** [self.app.invoke(inputs)]: the final state, or the exception. *)
Definition app_invoke (limit : nat) (inputs : GraphState) : M W GraphState :=
  fun w =>
    let (ex, w') := app limit inputs w in
    match outcome ex with
    | Finished => (Ok (final ex), w')
    | Failed e => (Raise e, w')
    | Interrupted _ => (Raise (GraphRecursionError "Recursion limit reached"), w')
    end.

(** [for output in self.app.stream(inputs)]: the loop of [query] keeps the
    last update in [value]; the exception of a failed run leaves the
    loop. *)
Definition app_stream_last (limit : nat) (inputs : GraphState)
  : M W (option GraphState) :=
  fun w =>
    let (ex, w') := app limit inputs w in
    match outcome ex with
    | Finished => (Ok (option_map snd (last (map Some (events ex)) None)), w')
    | Failed e => (Raise e, w')
    | Interrupted _ => (Raise (GraphRecursionError "Recursion limit reached"), w')
    end.

Definition query_inputs (q : string) : GraphState :=
  {| question := Some q; generation := None; documents := None;
     retry_count := Some 0%Z |}.

Definition query_simple_inputs (q : string) : GraphState :=
  {| question := Some q; generation := None; documents := None;
     retry_count := None |}.

Definition query (cfg : Config) (limit : nat) (q : string) : M W string :=
  _ <- Config_validate cfg ;;
  value <- app_stream_last limit (query_inputs q) ;;
  match value with
  | Some v => ret (get (generation v) "No answer generated")
  | None => raise (UnboundLocalError "value")
  end.

Definition query_simple (cfg : Config) (limit : nat) (q : string) : M W string :=
  _ <- Config_validate cfg ;;
  res <- app_invoke limit (query_simple_inputs q) ;;
  ret (get (generation res) "No answer generated").

End Graph.

(** ** Specification-side definitions *)

(** The verdicts of the relevance grader on the passages, asked in order. *)
Fixpoint relevance_verdicts {W : Type} (C : Collaborators W) (q : string)
  (docs : list Document) : M W (list string) :=
  match docs with
  | [] => ret []
  | doc :: rest =>
      v <- DocumentGrader_grade C q (page_content doc) ;;
      vs <- relevance_verdicts C q rest ;;
      ret (v :: vs)
  end.

(** The passages whose verdict is affirmative. *)
Definition kept_by (docs : list Document) (vs : list string) : list Document :=
  map fst (filter (fun p => snd p =? "yes") (combine docs vs)).

(** [l1] is [l2] with some elements left out, the others in their order. *)
Inductive subsequence {A : Type} : list A -> list A -> Prop :=
| subsequence_nil : subsequence [] []
| subsequence_skip (x : A) (l1 l2 : list A) :
    subsequence l1 l2 -> subsequence l1 (x :: l2)
| subsequence_keep (x : A) (l1 l2 : list A) :
    subsequence l1 l2 -> subsequence (x :: l1) (x :: l2).

(** The retrieval nodes: the two sources a question is routed to. *)
Definition is_source (n : node) : bool :=
  match n with
  | web_search | retrieve => true
  | _ => false
  end.

(** How much a node adds to [retry_count]. *)
Definition retry_increment (n : node) : Z :=
  match n with
  | transform_query => 1%Z
  | _ => 0%Z
  end.

(** ** Scripted collaborators

    The world is a script of answers; every oracle call takes the next line.
    A line ["boom"] makes the web-search tool raise. *)

Module Scripted.

Definition script : Type := list string.

Definition next_line (default : string) : M script string :=
  fun w =>
    match w with
    | [] => (Ok default, [])
    | a :: rest => (Ok a, rest)
    end.

Definition tool (q : string) : M script pyval :=
  fun w =>
    match w with
    | [] => (Ok (PStr ""), [])
    | a :: rest =>
        if a =? "boom" then (Raise (mkExn "ConnectionError" "boom"), rest)
        else (Ok (PStr a), rest)
    end.

Definition two_passages : list Document :=
  [Document_of "alpha"; Document_of "beta"].

Definition collaborators : Collaborators script :=
  {| router_invoke := fun _ => next_line "vectorstore";
     retriever_invoke := Some (fun _ => ret two_passages);
     web_search_tool_invoke := tool;
     chain_invoke := fun _ _ => next_line "answer";
     document_grader_invoke := fun _ _ => next_line "yes";
     hallucination_grader_invoke := fun _ _ => next_line "yes";
     answer_grader_invoke := fun _ _ => next_line "yes";
     py_repr := fun _ => "<object>" |}.

(** A groundedness grader that never accepts, whatever the script. *)
Definition never_grounded : Collaborators script :=
  {| router_invoke := fun _ => ret "web_search";
     retriever_invoke := None;
     web_search_tool_invoke := tool;
     chain_invoke := fun _ _ => next_line "answer";
     document_grader_invoke := fun _ _ => next_line "yes";
     hallucination_grader_invoke := fun _ _ => ret "no";
     answer_grader_invoke := fun _ _ => raise (ValueError "never asked");
     py_repr := fun _ => "<object>" |}.

Definition keys : Config :=
  {| GROQ_API_KEY := Some "gsk"; OPENAI_API_KEY := None;
     TAVILY_API_KEY := Some "tvly" |}.

(** A state as it reaches the grading of a generation. *)
Definition graded_state (retry : option Z) : GraphState :=
  {| question := Some "why"; generation := Some "because";
     documents := Some two_passages; retry_count := retry |}.

End Scripted.

(** ** Properties the code is checked against *)

(** The reading of the node under which the state's question becomes the
    wrapped string. *)
Definition question_is_rewritten (st : GraphState) : Prop :=
  forall q : string,
    question st = Some q ->
    exists upd : GraphState,
      fst (_transform_query st tt) = Ok upd
      /\ question (merge st upd) = Some (transformed_question q).

(** The reading under which a verdict that is neither "yes" nor "no" makes
    the grading raise: for the relevance grader, the groundedness grader and
    the adequacy grader in turn, each fed the verdict [v] by the script. *)
Definition foreign_verdict_is_rejected (v : string) : Prop :=
  v <> "yes" -> v <> "no" ->
  (exists e w', _grade_documents Scripted.collaborators
                  (Scripted.graded_state None) [v; v] = (Raise e, w'))
  /\ (exists e w', _grade_generation_v_documents_and_question Scripted.collaborators
                     (Scripted.graded_state None) [v] = (Raise e, w'))
  /\ (exists e w', _grade_generation_v_documents_and_question Scripted.collaborators
                     (Scripted.graded_state None) ["yes"; v] = (Raise e, w')).

(** The same collaborators with another adequacy grader. *)
Definition with_answer_grader {W : Type} (C : Collaborators W)
  (f : string -> string -> M W string) : Collaborators W :=
  {| router_invoke := router_invoke C;
     retriever_invoke := retriever_invoke C;
     web_search_tool_invoke := web_search_tool_invoke C;
     chain_invoke := chain_invoke C;
     document_grader_invoke := document_grader_invoke C;
     hallucination_grader_invoke := hallucination_grader_invoke C;
     answer_grader_invoke := f;
     py_repr := py_repr C |}.

(** Two states that every reader in the program takes for the same: they
    agree on the three other fields and on [retry_count] read with its
    default. *)
Definition same_reads (s1 s2 : GraphState) : Prop :=
  question s1 = question s2
  /\ generation s1 = generation s2
  /\ documents s1 = documents s2
  /\ retries s1 = retries s2.

(** ** Further properties the code is checked against *)

(** The room the retry budget leaves at a node: [generate] may run with up
    to three retries behind it, the nodes that can lead to a transform with
    at most two. *)
Definition within_budget (n : node) (st : GraphState) : Prop :=
  match n with
  | generate | web_search => (retries st <= 3)%Z
  | _ => (retries st <= 2)%Z
  end.

(** The edges of the graph, fixed and conditional, between nodes. *)
Definition graph_edge (a b : node) : bool :=
  match a, b with
  | web_search, generate
  | retrieve, grade_documents
  | grade_documents, transform_query
  | grade_documents, generate
  | transform_query, generate
  | generate, generate
  | generate, transform_query => true
  | _, _ => false
  end.

(** Every node of the list is followed by a node an edge leads to. *)
Fixpoint follows_edges (l : list node) : bool :=
  match l with
  | a :: tl =>
      match tl with
      | b :: _ => graph_edge a b && follows_edges tl
      | [] => true
      end
  | [] => true
  end.

(** The same collaborators before any vector store is created or loaded. *)
Definition without_retriever {W : Type} (C : Collaborators W) : Collaborators W :=
  {| router_invoke := router_invoke C;
     retriever_invoke := None;
     web_search_tool_invoke := web_search_tool_invoke C;
     chain_invoke := chain_invoke C;
     document_grader_invoke := document_grader_invoke C;
     hallucination_grader_invoke := hallucination_grader_invoke C;
     answer_grader_invoke := answer_grader_invoke C;
     py_repr := py_repr C |}.

(** A search result that is a dictionary with the text [c] under
    ["content"]. *)
Definition has_content (d : pyval) (c : string) : Prop :=
  exists items, d = PDict items
                /\ forall default, dict_get items "content" default = PStr c.

(** Scripted collaborators whose router always gives one of its two labels
    and whose groundedness grader always accepts. *)
Definition well_behaved : Collaborators Scripted.script :=
  {| router_invoke := fun _ w =>
       match w with
       | [] => (Ok "vectorstore", [])
       | a :: rest =>
           if a =? "web_search" then (Ok "web_search", rest)
           else (Ok "vectorstore", rest)
       end;
     retriever_invoke := Some (fun _ => ret Scripted.two_passages);
     web_search_tool_invoke := Scripted.tool;
     chain_invoke := fun _ _ => Scripted.next_line "answer";
     document_grader_invoke := fun _ _ => Scripted.next_line "yes";
     hallucination_grader_invoke := fun _ _ => ret "yes";
     answer_grader_invoke := fun _ _ => Scripted.next_line "yes";
     py_repr := fun _ => "<object>" |}.

(** ** Objects with fields of their own

    A method of an object that keeps state runs in the same monad over the
    pair of the object and the world: what it assigned to [self] before it
    raised stays assigned. *)

Definition lift {S W A : Type} (m : M W A) : M (S * W) A :=
  fun sw =>
    let (r, w') := m (snd sw) in (r, (fst sw, w')).

Definition get_self {S W : Type} : M (S * W) S :=
  fun sw => (Ok (fst sw), sw).

Definition set_self {S W : Type} (s : S) : M (S * W) unit :=
  fun sw => (Ok tt, (s, snd sw)).

Definition FileNotFoundError (m : string) : exn := mkExn "FileNotFoundError" m.

(** [Config.RETRIEVAL_K] and [Config.VECTOR_STORE_PATH]. *)
Definition RETRIEVAL_K : Z := 4.
Definition VECTOR_STORE_PATH : string := "./data/vectorstore".

(** The same collaborators around the retriever an object holds. *)
Definition with_retriever {W : Type} (C : Collaborators W)
  (r : option (string -> M W (list Document))) : Collaborators W :=
  {| router_invoke := router_invoke C;
     retriever_invoke := r;
     web_search_tool_invoke := web_search_tool_invoke C;
     chain_invoke := chain_invoke C;
     document_grader_invoke := document_grader_invoke C;
     hallucination_grader_invoke := hallucination_grader_invoke C;
     answer_grader_invoke := answer_grader_invoke C;
     py_repr := py_repr C |}.

(** *** [groq_retrieval.py]: the life of the vector store

    [GroqDocumentRetriever] (and [DocumentRetriever] of [retrieval.py], which
    has the same methods) over the FAISS library, whose calls are oracles. *)

Module Retriever.

Section Methods.

Context {W VS : Type}.

(** [FAISS.from_documents], [FAISS.load_local], [vectorstore.save_local] and
    [vectorstore.as_retriever(search_kwargs={"k": k})]. *)
Record FAISS : Type := mkFAISS {
  from_documents : list Document -> M W VS;
  load_local : string -> M W VS;
  save_local : VS -> string -> M W unit;
  as_retriever : VS -> Z -> M W (string -> M W (list Document))
}.

Record t : Type := mkRetriever {
  vectorstore_path : string;
  vectorstore : option VS;
  retriever : option (string -> M W (list Document))
}.

Variable F : FAISS.

(** [__init__]. *)
Definition init (path : string) : t :=
  {| vectorstore_path := path; vectorstore := None; retriever := None |}.

Definition set_vectorstore (vs : VS) : M (t * W) unit :=
  self <- get_self ;;
  set_self {| vectorstore_path := vectorstore_path self;
              vectorstore := Some vs;
              retriever := retriever self |}.

Definition set_retriever (r : string -> M W (list Document)) : M (t * W) unit :=
  self <- get_self ;;
  set_self {| vectorstore_path := vectorstore_path self;
              vectorstore := vectorstore self;
              retriever := Some r |}.

Definition create_vectorstore (docs : list Document) : M (t * W) unit :=
  vs <- lift (from_documents F docs) ;;
  _ <- set_vectorstore vs ;;
  r <- lift (as_retriever F vs RETRIEVAL_K) ;;
  set_retriever r.

Definition load_vectorstore : M (t * W) unit :=
  try_except
    (self <- get_self ;;
     vs <- lift (load_local F (vectorstore_path self)) ;;
     _ <- set_vectorstore vs ;;
     r <- lift (as_retriever F vs RETRIEVAL_K) ;;
     set_retriever r)
    (fun e =>
       self <- get_self ;;
       raise (FileNotFoundError
                ("Could not load vectorstore from " ++ vectorstore_path self
                 ++ ": " ++ exn_str e))).

(** [if self.vectorstore:] holds as soon as a store is assigned. *)
Definition save_vectorstore : M (t * W) unit :=
  self <- get_self ;;
  match vectorstore self with
  | Some vs => lift (save_local F vs (vectorstore_path self))
  | None => ret tt
  end.

(** [AdaptiveRAG.setup_vectorstore]. *)
Definition setup_vectorstore (docs : list Document) : M (t * W) unit :=
  _ <- create_vectorstore docs ;;
  save_vectorstore.

End Methods.

End Retriever.

(** *** [evaluator.py]: [SimpleEvaluator]

    The clock, the difference of two times, the number of words a string
    splits into and the lower-casing of a string are Python's; they are
    parameters here.  The object's field is [evaluation_results]. *)

Module Evaluator.

Section Methods.

Context {W T : Type}.
Variable C : Collaborators W.
Variable time_time : M W T.
Variable elapsed : T -> T -> T.
Variable split_len : string -> nat.
Variable lower : string -> string.
Variable limit : nat.

Record EvaluationMetrics : Type := mkMetrics {
  question : string;
  answer : string;
  context_used : string;
  route_taken : string;
  response_time : T;
  document_count : nat;
  answer_length : nat;
  contains_citations : bool
}.

(** [phrase in s]. *)
Definition contains (s phrase : string) : bool :=
  match String.index 0 phrase s with
  | Some _ => true
  | None => false
  end.

Definition citation_phrases : list string :=
  ["according to"; "based on"; "the document"; "the context"; "as mentioned"].

Definition evaluate_response (q : string)
  : M (list EvaluationMetrics * W) EvaluationMetrics :=
  start_time <- lift time_time ;;
  route <- lift (QuestionRouter_route C q) ;;
  result <- lift (app_invoke C limit (query_simple_inputs q)) ;;
  end_time <- lift time_time ;;
  let ans := get (generation result) "" in
  let docs := get (documents result) [] in
  let metrics :=
    {| question := q;
       answer := ans;
       context_used :=
         match docs with
         | [] => ""
         | _ => String.concat newline (map page_content docs)
         end;
       route_taken := route;
       response_time := elapsed end_time start_time;
       document_count :=
         match docs with
         | [] => 0
         | _ => length docs
         end;
       answer_length := if ans =? "" then 0 else split_len ans;
       contains_citations :=
         existsb (fun phrase => contains (lower ans) phrase) citation_phrases |} in
  evaluation_results <- get_self ;;
  _ <- set_self (evaluation_results ++ [metrics])%list ;;
  ret metrics.

(** The loop of [evaluate_batch] over the questions left, with the results
    so far. *)
Fixpoint batch_loop (questions : list string) (results : list EvaluationMetrics)
  : M (list EvaluationMetrics * W) (list EvaluationMetrics) :=
  match questions with
  | [] => ret results
  | q :: rest =>
      results' <-
        try_except
          (result <- evaluate_response q ;; ret (results ++ [result])%list)
          (fun _ => ret results) ;;
      batch_loop rest results'
  end.

Definition evaluate_batch (questions : list string)
  : M (list EvaluationMetrics * W) (list EvaluationMetrics) :=
  batch_loop questions [].

End Methods.

End Evaluator.

(** A vector store kept in memory, for concrete runs: a store is its list of
    documents, every search returns all of them, and loading fails when the
    script says ["missing"]. *)
Definition in_memory_store
  : @Retriever.FAISS Scripted.script (list Document) :=
  {| Retriever.from_documents := fun docs => ret docs;
     Retriever.load_local := fun _ w =>
       match w with
       | [] => (Ok Scripted.two_passages, [])
       | a :: rest =>
           if a =? "missing" then (Raise (mkExn "RuntimeError" "no such file"), rest)
           else (Ok Scripted.two_passages, rest)
       end;
     Retriever.save_local := fun _ _ => ret tt;
     Retriever.as_retriever := fun vs _ => ret (fun _ => ret vs) |}.

(** ** Proof automation *)

(** Take a successful run [H : m w = (Ok x, w')] of monadic code apart: case
    on every call and every field read it goes through, innermost first,
    and drop the cases that raise. *)
Ltac invert_run H :=
  unfold bind, getitem, ret, raise in H;
  repeat (
    cbv beta iota in H;
    match type of H with
    | context [match ?x with _ => _ end] =>
        lazymatch x with
        | context [match _ with _ => _ end] => fail
        | _ => let E := fresh "Hcall" in destruct x eqn:E; try discriminate H
        end
    end);
  cbv beta iota in H.

(** ** Concrete runs *)

(** Scenario A: two relevant passages, a grounded and adequate answer. *)
Example scenario_A :
  fst (app Scripted.collaborators 25 (query_inputs "why")
         ["vectorstore"; "yes"; "yes"; "answer"; "yes"; "yes"])
  = {| events :=
         [(retrieve, mkState (Some "why") None (Some Scripted.two_passages) None);
          (grade_documents, mkState (Some "why") None (Some Scripted.two_passages) None);
          (generate, mkState (Some "why") (Some "answer") (Some Scripted.two_passages) None)];
       final := mkState (Some "why") (Some "answer") (Some Scripted.two_passages) (Some 0%Z);
       outcome := Finished |}.
Proof. reflexivity. Qed.

(** Scenario B: no relevant passage, so the query is transformed once. *)
Example scenario_B :
  let ex := fst (app Scripted.collaborators 25 (query_inputs "why")
                   ["vectorstore"; "no"; "no"; "answer"; "yes"; "yes"]) in
  trace ex = [retrieve; grade_documents; transform_query; generate]
  /\ final ex = mkState (Some "why") (Some "answer") (Some []) (Some 1%Z)
  /\ outcome ex = Finished.
Proof. repeat split. Qed.

(** Scenario C: the web search fails, two answers are not grounded, the
    third is accepted; [retry_count] stays at 0. *)
Example scenario_C :
  let ex := fst (app Scripted.collaborators 25 (query_inputs "why")
                   ["web_search"; "boom"; "a1"; "no"; "a2"; "no";
                    "a3"; "yes"; "yes"]) in
  trace ex = [web_search; generate; generate; generate]
  /\ final ex = mkState (Some "why") (Some "a3")
                  (Some [Document_of "Web search failed: boom"]) (Some 0%Z)
  /\ outcome ex = Finished.
Proof. repeat split. Qed.

(** Scenario D: four inadequate answers; the fourth is accepted. *)
Example scenario_D :
  let ex := fst (app Scripted.collaborators 25 (query_inputs "why")
                   ["web_search"; "page";
                    "a1"; "yes"; "no"; "a2"; "yes"; "no";
                    "a3"; "yes"; "no"; "a4"; "yes"; "no"]) in
  trace ex = [web_search; generate; transform_query; generate; transform_query;
              generate; transform_query; generate]
  /\ generation (final ex) = Some "a4"
  /\ retry_count (final ex) = Some 3%Z
  /\ outcome ex = Finished.
Proof. repeat split. Qed.

(** ** Reasoning about the monad *)

Lemma bind_ok {W A B : Type} (m : M W A) (f : A -> M W B) (w w' : W) (a : A) :
  m w = (Ok a, w') -> bind m f w = f a w'.
Proof. intros H. unfold bind. rewrite H. reflexivity. Qed.

Lemma bind_raise {W A B : Type} (m : M W A) (f : A -> M W B) (w w' : W) (e : exn) :
  m w = (Raise e, w') -> bind m f w = (Raise e, w').
Proof. intros H. unfold bind. rewrite H. reflexivity. Qed.

Lemma bind_ret {W A B : Type} (a : A) (f : A -> M W B) (w : W) :
  bind (ret a) f w = f a w.
Proof. reflexivity. Qed.

Lemma getitem_some {W A : Type} (k : string) (a : A) (w : W) :
  getitem k (Some a) w = (Ok a, w).
Proof. reflexivity. Qed.

(** ** The branch predicate after [generate] *)

Section GradeGeneration.

Context {W : Type}.
Variable C : Collaborators W.
Variables (st : GraphState) (q g : string) (docs : list Document).
Hypothesis Hq : question st = Some q.
Hypothesis Hd : documents st = Some docs.
Hypothesis Hg : generation st = Some g.

Lemma grade_generation_not_grounded (v : string) (w w1 : W) :
  hallucination_grader_invoke C (String.concat newline (map page_content docs)) g w
    = (Ok v, w1) ->
  v <> "yes" ->
  _grade_generation_v_documents_and_question C st w = (Ok (Some "not supported"), w1).
Proof.
  intros Hh Hv. unfold _grade_generation_v_documents_and_question.
  rewrite Hq, Hd, Hg. cbn [getitem]. rewrite !bind_ret.
  unfold HallucinationGrader_grade.
  rewrite (bind_ok _ _ _ _ _ Hh).
  destruct (String.eqb_spec v "yes"); [contradiction | reflexivity].
Qed.

Lemma grade_generation_grounded (w w1 : W) :
  hallucination_grader_invoke C (String.concat newline (map page_content docs)) g w
    = (Ok "yes", w1) ->
  _grade_generation_v_documents_and_question C st w =
  bind (AnswerGrader_grade C q g)
    (fun score =>
       if score =? "yes" then ret (Some "useful")
       else if (3 <=? retries st)%Z then ret (Some "useful")
       else ret (Some "not useful")) w1.
Proof.
  intros Hh. unfold _grade_generation_v_documents_and_question.
  rewrite Hq, Hd, Hg. cbn [getitem]. rewrite !bind_ret.
  unfold HallucinationGrader_grade.
  rewrite (bind_ok _ _ _ _ _ Hh). reflexivity.
Qed.

Lemma grade_generation_inadequate (v : string) (w w1 w2 : W) :
  hallucination_grader_invoke C (String.concat newline (map page_content docs)) g w
    = (Ok "yes", w1) ->
  answer_grader_invoke C q g w1 = (Ok v, w2) ->
  v <> "yes" ->
  _grade_generation_v_documents_and_question C st w =
  (Ok (Some (if (3 <=? retries st)%Z then "useful" else "not useful")), w2).
Proof.
  intros Hh Ha Hv. rewrite (grade_generation_grounded _ _ Hh).
  unfold AnswerGrader_grade. rewrite (bind_ok _ _ _ _ _ Ha).
  destruct (String.eqb_spec v "yes"); [contradiction |].
  destruct (3 <=? retries st)%Z; reflexivity.
Qed.

End GradeGeneration.

(** C1. Retry ceiling: when the groundedness verdict is "yes", the adequacy
    verdict is "no" and [retry_count >= 3], the predicate after [generate]
    returns "useful", and the edge it selects leads to [END], not to
    [transform_query]. *)
Theorem retry_ceiling_forces_done
  {W : Type} (C : Collaborators W) (st : GraphState) (q g : string)
  (docs : list Document) (w w1 w2 : W) :
  question st = Some q ->
  documents st = Some docs ->
  generation st = Some g ->
  hallucination_grader_invoke C (String.concat newline (map page_content docs)) g w
    = (Ok "yes", w1) ->
  answer_grader_invoke C q g w1 = (Ok "no", w2) ->
  (3 <= retries st)%Z ->
  _grade_generation_v_documents_and_question C st w = (Ok (Some "useful"), w2)
  /\ next_target C generate st w = (Ok END, w2)
  /\ next_target C generate st w <> (Ok (Node transform_query), w2).
Proof.
  intros Hq Hd Hg Hh Ha Hr.
  assert (Hp : _grade_generation_v_documents_and_question C st w
               = (Ok (Some "useful"), w2)).
  { rewrite (grade_generation_inadequate C st q g docs Hq Hd Hg "no" w w1 w2 Hh Ha)
      by discriminate.
    apply Z.leb_le in Hr. rewrite Hr. reflexivity. }
  assert (Hn : next_target C generate st w = (Ok END, w2)).
  { unfold next_target. rewrite (bind_ok _ _ _ _ _ Hp). reflexivity. }
  repeat split; [exact Hp | exact Hn |].
  rewrite Hn. discriminate.
Qed.

Lemma retry_ceiling_forces_done_witness :
  _grade_generation_v_documents_and_question Scripted.collaborators
    (Scripted.graded_state (Some 3%Z)) ["yes"; "no"] = (Ok (Some "useful"), [])
  /\ next_target Scripted.collaborators generate
       (Scripted.graded_state (Some 3%Z)) ["yes"; "no"] = (Ok END, [])
  /\ next_target Scripted.collaborators generate
       (Scripted.graded_state (Some 3%Z)) ["yes"; "no"]
     <> (Ok (Node transform_query), []).
Proof.
  apply (retry_ceiling_forces_done Scripted.collaborators
           (Scripted.graded_state (Some 3%Z)) "why" "because"
           Scripted.two_passages ["yes"; "no"] ["no"] []);
    first [reflexivity | unfold retries; simpl; lia].
Defined.

(** ** [transform_query] *)

(** C2, as stated, fails: on the inputs of [query] for the question "why"
    the node does not put the wrapped question into the state. *)
Lemma question_is_rewritten_fails :
  ~ question_is_rewritten (query_inputs "why").
Proof.
  intros H. destruct (H "why" eq_refl) as [upd [Hrun Hq]].
  cbv in Hrun. injection Hrun as <-. cbv in Hq. discriminate.
Qed.

(** C2, amended. For every state with a question, [transform_query] returns
    the question as it was (the wrapped string is computed and dropped), the
    documents as they were (the empty list if the state had none) and
    [retry_count + 1]; it calls no collaborator.  The state after the node
    has the same question and the same documents, so a second execution
    wraps nothing either. *)
Theorem transform_query_keeps_question
  {W : Type} (st : GraphState) (q : string) (w : W) :
  question st = Some q ->
  let upd := {| question := Some q; generation := None;
                documents := Some (get (documents st) []);
                retry_count := Some (retries st + 1)%Z |} in
  _transform_query st w = (Ok upd, w)
  /\ question (merge st upd) = Some q
  /\ (forall docs, documents st = Some docs -> documents (merge st upd) = Some docs)
  /\ (exists upd', _transform_query (merge st upd) w = (Ok upd', w)
                   /\ question upd' = Some q
                   /\ documents upd' = documents upd).
Proof.
  intros Hq upd. unfold _transform_query.
  repeat split.
  - rewrite Hq. reflexivity.
  - intros docs Hd. cbn. rewrite Hd. reflexivity.
  - eexists. repeat split.
Qed.

Lemma transform_query_keeps_question_witness :
  _transform_query (Scripted.graded_state (Some 2%Z)) ["left"]
  = (Ok {| question := Some "why"; generation := None;
           documents := Some Scripted.two_passages;
           retry_count := Some 3%Z |}, ["left"]).
Proof.
  exact (proj1 (transform_query_keeps_question
                  (Scripted.graded_state (Some 2%Z)) "why" ["left"] eq_refl)).
Defined.

(** ** [grade_documents] *)

Lemma subsequence_refl {A : Type} (l : list A) : subsequence l l.
Proof. induction l; constructor; assumption. Qed.

Lemma kept_by_subsequence (docs : list Document) (vs : list string) :
  subsequence (kept_by docs vs) docs.
Proof.
  unfold kept_by. revert vs.
  induction docs as [| d docs IH]; intros vs.
  - constructor.
  - destruct vs as [| v vs]; cbn.
    + constructor. specialize (IH []). destruct docs; exact IH.
    + destruct (v =? "yes"); cbn; constructor; apply IH.
Qed.

Lemma relevance_verdicts_length {W : Type} (C : Collaborators W) (q : string)
  (docs : list Document) :
  forall (w w' : W) (vs : list string),
    relevance_verdicts C q docs w = (Ok vs, w') -> length vs = length docs.
Proof.
  induction docs as [| d docs IH]; intros w w' vs H; cbn in H.
  - injection H as <- _. reflexivity.
  - unfold bind in H.
    destruct (DocumentGrader_grade C q (page_content d) w) as [[v | e] w1];
      [| discriminate].
    destruct (relevance_verdicts C q docs w1) as [[vs' | e] w2] eqn:E;
      [| discriminate].
    injection H as <- _. cbn. f_equal. eapply IH. exact E.
Qed.

(** The loop with its accumulator computes the filter by the verdicts. *)
Lemma grade_loop_spec {W : Type} (C : Collaborators W) (q : string)
  (docs : list Document) :
  forall (acc : list Document) (w : W),
    grade_loop C q docs acc w =
    match relevance_verdicts C q docs w with
    | (Ok vs, w') => (Ok (acc ++ kept_by docs vs)%list, w')
    | (Raise e, w') => (Raise e, w')
    end.
Proof.
  induction docs as [| d docs IH]; intros acc w; cbn.
  - rewrite app_nil_r. reflexivity.
  - unfold bind.
    destruct (DocumentGrader_grade C q (page_content d) w) as [[v | e] w1];
      [| reflexivity].
    destruct (v =? "yes") eqn:Ev.
    + rewrite IH.
      destruct (relevance_verdicts C q docs w1) as [[vs | e] w2]; [| reflexivity].
      unfold kept_by. cbn. rewrite Ev. cbn. rewrite <- app_assoc. reflexivity.
    + rewrite IH.
      destruct (relevance_verdicts C q docs w1) as [[vs | e] w2]; [| reflexivity].
      unfold kept_by. cbn. rewrite Ev. reflexivity.
Qed.

Lemma kept_by_all_no (docs : list Document) (vs : list string) :
  Forall (fun v => v <> "yes") vs -> kept_by docs vs = [].
Proof.
  unfold kept_by. revert vs.
  induction docs as [| d docs IH]; intros vs H; [reflexivity |].
  destruct vs as [| v vs]; [reflexivity |].
  inversion H; subst. cbn.
  destruct (String.eqb_spec v "yes"); [contradiction |]. apply IH. assumption.
Qed.

(** C5. Whatever passages the state holds and whatever verdicts the
    relevance grader gives them, [grade_documents] asks once per passage in
    the original order and returns exactly the passages whose verdict is
    "yes", in their original relative order; when no verdict is "yes" it
    returns the empty list, without raising. *)
Theorem grade_documents_keeps_relevant_in_order
  {W : Type} (C : Collaborators W) (st : GraphState) (q : string)
  (docs : list Document) (vs : list string) (w w' : W) :
  question st = Some q ->
  documents st = Some docs ->
  relevance_verdicts C q docs w = (Ok vs, w') ->
  _grade_documents C st w
  = (Ok {| question := Some q; generation := None;
           documents := Some (kept_by docs vs); retry_count := None |}, w')
  /\ length vs = length docs
  /\ subsequence (kept_by docs vs) docs
  /\ (Forall (fun v => v <> "yes") vs -> kept_by docs vs = []).
Proof.
  intros Hq Hd Hv. repeat split.
  - unfold _grade_documents. rewrite Hq, Hd. cbn [getitem]. rewrite !bind_ret.
    unfold bind at 1. rewrite grade_loop_spec, Hv. reflexivity.
  - eapply relevance_verdicts_length. exact Hv.
  - apply kept_by_subsequence.
  - apply kept_by_all_no.
Qed.

Lemma grade_documents_keeps_relevant_in_order_witness :
  _grade_documents Scripted.collaborators (Scripted.graded_state None) ["no"; "yes"]
  = (Ok {| question := Some "why"; generation := None;
           documents := Some [Document_of "beta"]; retry_count := None |}, []).
Proof.
  exact (proj1 (grade_documents_keeps_relevant_in_order Scripted.collaborators
                  (Scripted.graded_state None) "why" Scripted.two_passages
                  ["no"; "yes"] ["no"; "yes"] [] eq_refl eq_refl eq_refl)).
Defined.

(** ** The edge out of [START] *)

(** C7. The route predicate sends the router's label "web_search" to the
    [web_search] node and "vectorstore" to the [retrieve] node.  Any other
    label is looked up in vain: the execution fails with an exception after
    the one call to the router, no node has run, and nothing is retried. *)
Theorem route_maps_two_labels_else_fails
  {W : Type} (C : Collaborators W) (limit : nat) (st : GraphState)
  (q label : string) (w w1 : W) :
  question st = Some q ->
  router_invoke C q w = (Ok label, w1) ->
  (label = "web_search" -> start_target C st w = (Ok (Node web_search), w1))
  /\ (label = "vectorstore" -> start_target C st w = (Ok (Node retrieve), w1))
  /\ (label <> "web_search" -> label <> "vectorstore" ->
      start_target C st w = (Raise (KeyError "None"), w1)
      /\ app C limit st w
         = ({| events := []; final := st; outcome := Failed (KeyError "None") |}, w1)
      /\ app_invoke C limit st w = (Raise (KeyError "None"), w1)).
Proof.
  intros Hq Hr.
  assert (Hroute : _route_question C st w =
                   ((if label =? "web_search" then Ok (Some "web_search")
                     else if label =? "vectorstore" then Ok (Some "vectorstore")
                     else Ok None), w1)).
  { unfold _route_question. rewrite Hq. cbn [getitem]. rewrite bind_ret.
    unfold QuestionRouter_route. rewrite (bind_ok _ _ _ _ _ Hr).
    destruct (label =? "web_search"); [reflexivity |].
    destruct (label =? "vectorstore"); reflexivity. }
  repeat split.
  - intros ->. unfold start_target, bind. rewrite Hroute. reflexivity.
  - intros ->. unfold start_target, bind. rewrite Hroute. reflexivity.
  - unfold start_target, bind. rewrite Hroute.
    destruct (String.eqb_spec label "web_search"); [contradiction |].
    destruct (String.eqb_spec label "vectorstore"); [contradiction |].
    reflexivity.
  - unfold app, start_target, bind. rewrite Hroute.
    destruct (String.eqb_spec label "web_search"); [contradiction |].
    destruct (String.eqb_spec label "vectorstore"); [contradiction |].
    reflexivity.
  - unfold app_invoke, app, start_target, bind. rewrite Hroute.
    destruct (String.eqb_spec label "web_search"); [contradiction |].
    destruct (String.eqb_spec label "vectorstore"); [contradiction |].
    reflexivity.
Qed.

Lemma route_maps_two_labels_else_fails_witness :
  app Scripted.collaborators 25 (query_inputs "why") ["wikipedia"; "yes"]
  = ({| events := []; final := query_inputs "why";
        outcome := Failed (KeyError "None") |}, ["yes"]).
Proof.
  refine (proj1 (proj2 (proj2 (proj2
    (route_maps_two_labels_else_fails Scripted.collaborators 25
       (query_inputs "why") "why" "wikipedia" ["wikipedia"; "yes"] ["yes"]
       eq_refl eq_refl)) _ _))); discriminate.
Defined.

(** ** Verdicts outside "yes" and "no" *)

(** C8, as stated, fails: the verdict "maybe" is taken without an error by
    each of the three gradings, and each treats it as a "no". *)
Lemma foreign_verdict_is_rejected_fails :
  ~ foreign_verdict_is_rejected "maybe"
  /\ _grade_documents Scripted.collaborators (Scripted.graded_state None)
       ["maybe"; "maybe"]
     = (Ok {| question := Some "why"; generation := None;
              documents := Some []; retry_count := None |}, [])
  /\ _grade_generation_v_documents_and_question Scripted.collaborators
       (Scripted.graded_state None) ["maybe"] = (Ok (Some "not supported"), [])
  /\ _grade_generation_v_documents_and_question Scripted.collaborators
       (Scripted.graded_state None) ["yes"; "maybe"] = (Ok (Some "not useful"), []).
Proof.
  repeat split.
  intros H. destruct H as [[e [w' H]] _]; try discriminate.
Qed.

(** C8, amended. A verdict string other than "yes", whether "no" or any
    string outside the two values, is accepted without an error and counts
    as negative: the relevance loop drops the passage and goes on, the
    groundedness branch answers "not supported", and the adequacy branch
    answers "not useful", or "useful" once [retry_count >= 3]. *)
Theorem verdict_other_than_yes_counts_as_no
  {W : Type} (C : Collaborators W) (v : string) :
  v <> "yes" ->
  (forall q doc rest acc w w1,
      document_grader_invoke C q (page_content doc) w = (Ok v, w1) ->
      grade_loop C q (doc :: rest) acc w = grade_loop C q rest acc w1)
  /\ (forall st q g docs w w1,
      question st = Some q -> documents st = Some docs -> generation st = Some g ->
      hallucination_grader_invoke C (String.concat newline (map page_content docs)) g w
        = (Ok v, w1) ->
      _grade_generation_v_documents_and_question C st w
        = (Ok (Some "not supported"), w1))
  /\ (forall st q g docs w w1 w2,
      question st = Some q -> documents st = Some docs -> generation st = Some g ->
      hallucination_grader_invoke C (String.concat newline (map page_content docs)) g w
        = (Ok "yes", w1) ->
      answer_grader_invoke C q g w1 = (Ok v, w2) ->
      _grade_generation_v_documents_and_question C st w
        = (Ok (Some (if (3 <=? retries st)%Z then "useful" else "not useful")), w2)).
Proof.
  intros Hv. repeat split.
  - intros q doc rest acc w w1 Hd. cbn [grade_loop].
    unfold DocumentGrader_grade. rewrite (bind_ok _ _ _ _ _ Hd).
    destruct (String.eqb_spec v "yes"); [contradiction | reflexivity].
  - intros st q g docs w w1 Hq Hd Hg Hh.
    exact (grade_generation_not_grounded C st q g docs Hq Hd Hg v w w1 Hh Hv).
  - intros st q g docs w w1 w2 Hq Hd Hg Hh Ha.
    exact (grade_generation_inadequate C st q g docs Hq Hd Hg v w w1 w2 Hh Ha Hv).
Qed.

Lemma verdict_other_than_yes_counts_as_no_witness :
  _grade_generation_v_documents_and_question Scripted.collaborators
    (Scripted.graded_state (Some 1%Z)) ["yes"; "perhaps"]
  = (Ok (Some "not useful"), []).
Proof.
  refine (proj2 (proj2
    (verdict_other_than_yes_counts_as_no Scripted.collaborators "perhaps" _))
    (Scripted.graded_state (Some 1%Z)) "why" "because" Scripted.two_passages
    ["yes"; "perhaps"] ["perhaps"] [] eq_refl eq_refl eq_refl eq_refl eq_refl).
  discriminate.
Defined.

(** ** [WebSearcher.search] *)

Lemma search_total {W : Type} (C : Collaborators W) (q : string) (w : W) :
  exists doc w', WebSearcher_search C q w = (Ok doc, w').
Proof.
  unfold WebSearcher_search, try_except.
  destruct (WebSearcher_search_body C q w) as [[doc | e] w'].
  - exists doc, w'. reflexivity.
  - eexists. eexists. reflexivity.
Qed.

Lemma search_tool_failure {W : Type} (C : Collaborators W) (q : string)
  (w w1 : W) (e : exn) :
  web_search_tool_invoke C q w = (Raise e, w1) ->
  WebSearcher_search C q w
  = (Ok (Document_of ("Web search failed: " ++ exn_str e)), w1).
Proof.
  intros H. unfold WebSearcher_search, try_except, WebSearcher_search_body.
  rewrite (bind_raise _ _ _ _ _ H). reflexivity.
Qed.

(** A failure inside the [try] block after the tool has answered is caught
    the same way: a list whose first element is a dictionary and whose
    second is not. *)
Example search_mixed_list :
  let C := {| router_invoke := fun _ => ret "web_search";
              retriever_invoke := None;
              web_search_tool_invoke :=
                fun _ => ret (PList [PDict [("content", PStr "a")]; PStr "b"]);
              chain_invoke := fun _ _ => ret "";
              document_grader_invoke := fun _ _ => ret "yes";
              hallucination_grader_invoke := fun _ _ => ret "yes";
              answer_grader_invoke := fun _ _ => ret "yes";
              py_repr := fun _ => "<object>" |} in
  WebSearcher_search C "why" tt
  = (Ok (Document_of "Web search failed: object has no attribute 'get'"), tt).
Proof. reflexivity. Qed.

(** C9. [WebSearcher.search] never raises: whatever the tool does, it
    returns a [Document].  When the tool call raises an exception [e], the
    document's content is "Web search failed: " followed by [str(e)].  The
    [web_search] node then stores that single document, and the graph goes on
    to [generate]. *)
Theorem web_search_never_raises
  {W : Type} (C : Collaborators W) (st : GraphState) (q : string) (w : W) :
  question st = Some q ->
  (exists doc w', WebSearcher_search C q w = (Ok doc, w'))
  /\ (forall e w1,
        web_search_tool_invoke C q w = (Raise e, w1) ->
        WebSearcher_search C q w
        = (Ok (Document_of ("Web search failed: " ++ exn_str e)), w1)
        /\ step C web_search st w
           = (Ok (let upd := {| question := Some q; generation := None;
                                documents := Some [Document_of
                                  ("Web search failed: " ++ exn_str e)];
                                retry_count := None |} in
                  (upd, merge st upd, Node generate)), w1))
  /\ (exists doc w',
        _web_search C st w
        = (Ok {| question := Some q; generation := None;
                 documents := Some [doc]; retry_count := None |}, w')).
Proof.
  intros Hq. split; [apply search_total |]. split.
  - intros e w1 He. pose proof (search_tool_failure C q w w1 e He) as Hs.
    split; [exact Hs |].
    unfold step, node_function, _web_search, bind. rewrite Hq.
    cbn [getitem ret]. rewrite Hs. reflexivity.
  - destruct (search_total C q w) as [doc [w' Hs]].
    exists doc, w'. unfold _web_search. rewrite Hq. cbn [getitem].
    rewrite bind_ret. unfold bind. rewrite Hs. reflexivity.
Qed.

Lemma web_search_never_raises_witness :
  WebSearcher_search Scripted.collaborators "why" ["boom"; "answer"]
  = (Ok (Document_of "Web search failed: boom"), ["answer"]).
Proof.
  exact (proj1 (proj1 (proj2
    (web_search_never_raises Scripted.collaborators (query_inputs "why") "why"
       ["boom"; "answer"] eq_refl))
    (mkExn "ConnectionError" "boom") ["answer"] eq_refl)).
Defined.

(** ** Steps of the graph *)

Lemma bind_inv {W A B : Type} (m : M W A) (f : A -> M W B) (w w' : W) (b : B) :
  bind m f w = (Ok b, w') ->
  exists a w1, m w = (Ok a, w1) /\ f a w1 = (Ok b, w').
Proof.
  unfold bind. destruct (m w) as [[a | e] w1]; [| discriminate].
  intros H. exists a, w1. split; [reflexivity | exact H].
Qed.

Lemma getitem_inv {W A : Type} (k : string) (o : option A) (w w' : W) (a : A) :
  getitem k o w = (Ok a, w') -> o = Some a /\ w' = w.
Proof.
  destruct o as [x |]; cbn; intros H; [| discriminate].
  injection H as <- <-. split; reflexivity.
Qed.

Lemma ret_inv {W A : Type} (a b : A) (w w' : W) :
  @ret W A a w = (Ok b, w') -> b = a /\ w' = w.
Proof. unfold ret. intros H. injection H as <- <-. split; reflexivity. Qed.

Section Steps.

Context {W : Type}.
Variable C : Collaborators W.

Lemma retries_merge (st upd : GraphState) :
  retries (merge st upd) = get (retry_count upd) (retries st).
Proof. unfold retries, merge. cbn. destruct (retry_count upd); reflexivity. Qed.

(** What a node writes to [retry_count]: [transform_query] the successor
    of what it read, every other node nothing. *)
Lemma node_function_retry_count (n : node) (st upd : GraphState) (w w' : W) :
  node_function C n st w = (Ok upd, w') ->
  retry_count upd =
  match n with
  | transform_query => Some (retries st + 1)%Z
  | _ => None
  end.
Proof.
  intros H. destruct n; cbn [node_function] in H.
  - unfold _web_search in H. invert_run H. injection H as <- _. reflexivity.
  - unfold _retrieve in H. invert_run H. injection H as <- _. reflexivity.
  - unfold _grade_documents in H. invert_run H. injection H as <- _. reflexivity.
  - unfold _generate in H. invert_run H. injection H as <- _. reflexivity.
  - unfold _transform_query in H. invert_run H. injection H as <- _. reflexivity.
Qed.

Lemma node_function_retries (n : node) (st upd : GraphState) (w w' : W) :
  node_function C n st w = (Ok upd, w') ->
  retries (merge st upd) = (retries st + retry_increment n)%Z.
Proof.
  intros H. rewrite retries_merge.
  rewrite (node_function_retry_count _ _ _ _ _ H).
  destruct n; cbn; lia.
Qed.

Lemma step_inv (n : node) (st upd st' : GraphState) (t : target) (w w' : W) :
  step C n st w = (Ok (upd, st', t), w') ->
  exists w1,
    node_function C n st w = (Ok upd, w1)
    /\ st' = merge st upd
    /\ next_target C n st' w1 = (Ok t, w').
Proof.
  unfold step. intros H.
  apply bind_inv in H. destruct H as [u [w1 [Hn H]]].
  apply bind_inv in H. destruct H as [t' [w2 [Ht H]]].
  apply ret_inv in H. destruct H as [E ->].
  injection E as -> -> ->.
  exists w1. repeat split; assumption.
Qed.

Lemma resolve_inv (path_map : list (string * target)) (label : option string)
  (t : target) (w w' : W) :
  resolve path_map label w = (Ok t, w') ->
  exists l, label = Some l /\ path_lookup path_map l = Some t /\ w' = w.
Proof.
  unfold resolve. destruct label as [l |]; [| discriminate].
  destruct (path_lookup path_map l) as [t' |] eqn:E; [| discriminate].
  intros H. apply ret_inv in H. destruct H as [-> ->].
  exists l. repeat split. exact E.
Qed.

Lemma decide_path_map_targets (l : string) (t : target) :
  path_lookup decide_path_map l = Some t ->
  t = Node transform_query \/ t = Node generate.
Proof.
  unfold decide_path_map. cbn [path_lookup].
  destruct ("transform_query" =? l); [intros H; injection H as <-; auto |].
  destruct ("generate" =? l); [intros H; injection H as <-; auto | discriminate].
Qed.

Lemma route_path_map_targets (l : string) (t : target) :
  path_lookup route_path_map l = Some t ->
  t = Node web_search \/ t = Node retrieve.
Proof.
  unfold route_path_map. cbn [path_lookup].
  destruct ("web_search" =? l); [intros H; injection H as <-; auto |].
  destruct ("vectorstore" =? l); [intros H; injection H as <-; auto | discriminate].
Qed.

Lemma grade_path_map_targets (l : string) (t : target) :
  path_lookup grade_path_map l = Some t ->
  t = Node generate \/ t = END \/ t = Node transform_query.
Proof.
  unfold grade_path_map. cbn [path_lookup].
  destruct ("not supported" =? l); [intros H; injection H as <-; auto |].
  destruct ("useful" =? l); [intros H; injection H as <-; auto |].
  destruct ("not useful" =? l); [intros H; injection H as <-; auto | discriminate].
Qed.

(** No edge leads back to a source node. *)
Lemma next_target_not_source (n n' : node) (st : GraphState) (w w' : W) :
  next_target C n st w = (Ok (Node n'), w') -> is_source n' = false.
Proof.
  intros H. destruct n; cbn [next_target] in H.
  - apply ret_inv in H. destruct H as [E _]. injection E as ->. reflexivity.
  - apply ret_inv in H. destruct H as [E _]. injection E as ->. reflexivity.
  - apply bind_inv in H. destruct H as [l [w1 [_ H]]].
    apply resolve_inv in H. destruct H as [l' [_ [H _]]].
    apply decide_path_map_targets in H.
    destruct H as [E | E]; injection E as ->; reflexivity.
  - apply bind_inv in H. destruct H as [l [w1 [_ H]]].
    apply resolve_inv in H. destruct H as [l' [_ [H _]]].
    apply grade_path_map_targets in H.
    destruct H as [E | [E | E]]; try discriminate; injection E as ->; reflexivity.
  - apply ret_inv in H. destruct H as [E _]. injection E as ->. reflexivity.
Qed.

(** Only the edge out of [generate] leads to [END]. *)
Lemma next_target_end (n : node) (st : GraphState) (w w' : W) :
  next_target C n st w = (Ok END, w') -> n = generate.
Proof.
  intros H. destruct n; cbn [next_target] in H; try reflexivity.
  - apply ret_inv in H. destruct H as [E _]. discriminate.
  - apply ret_inv in H. destruct H as [E _]. discriminate.
  - apply bind_inv in H. destruct H as [l [w1 [_ H]]].
    apply resolve_inv in H. destruct H as [l' [_ [H _]]].
    apply decide_path_map_targets in H. destruct H; discriminate.
  - apply ret_inv in H. destruct H as [E _]. discriminate.
Qed.

(** The edge out of [START] leads to one of the two source nodes. *)
Lemma start_target_source (st : GraphState) (t : target) (w w' : W) :
  start_target C st w = (Ok t, w') ->
  t = Node web_search \/ t = Node retrieve.
Proof.
  unfold start_target. intros H.
  apply bind_inv in H. destruct H as [l [w1 [_ H]]].
  apply resolve_inv in H. destruct H as [l' [_ [H _]]].
  exact (route_path_map_targets _ _ H).
Qed.

End Steps.

(** ** Executions *)

Section Runs.

Context {W : Type}.
Variable C : Collaborators W.

(** The three ways a run of at least one step goes on. *)
Lemma run_cases (limit : nat) (n : node) (st : GraphState) (w : W) :
  (exists e w', step C n st w = (Raise e, w')
                /\ run C (S limit) n st w
                   = ({| events := []; final := st; outcome := Failed e |}, w'))
  \/ (exists upd w', step C n st w = (Ok (upd, merge st upd, END), w')
                /\ run C (S limit) n st w
                   = ({| events := [(n, upd)]; final := merge st upd;
                         outcome := Finished |}, w'))
  \/ (exists upd n' w', step C n st w = (Ok (upd, merge st upd, Node n'), w')
                /\ run C (S limit) n st w
                   = (after_event (n, upd) (fst (run C limit n' (merge st upd) w')),
                      snd (run C limit n' (merge st upd) w'))).
Proof.
  cbn [run].
  destruct (step C n st w) as [[[[upd st'] t] | e] w'] eqn:E.
  - destruct (step_inv C _ _ _ _ _ _ _ E) as [w1 [_ [-> _]]].
    destruct t as [n' |].
    + right. right. exists upd, n', w'. split; [reflexivity |].
      destruct (run C limit n' (merge st upd) w'). reflexivity.
    + right. left. exists upd, w'. split; reflexivity.
  - left. exists e, w'. split; reflexivity.
Qed.

Lemma run_final_replay (limit : nat) :
  forall (n : node) (st : GraphState) (w : W),
    final (fst (run C limit n st w)) = replay st (events (fst (run C limit n st w))).
Proof.
  induction limit as [| limit IH]; intros n st w; [reflexivity |].
  destruct (run_cases limit n st w)
    as [[e [w' [_ ->]]] | [[upd [w' [_ ->]]] | [upd [n' [w' [_ ->]]]]]];
    cbn; try reflexivity.
  apply IH.
Qed.

(** Each event of a run adds its node's increment to [retry_count], and
    only [transform_query] writes the field. *)
Lemma run_event_retries (limit : nat) :
  forall (n : node) (st : GraphState) (w : W)
         (pre post : list (node * GraphState)) (m : node) (upd : GraphState),
    events (fst (run C limit n st w)) = (pre ++ (m, upd) :: post)%list ->
    retries (replay st (pre ++ [(m, upd)])%list)
    = (retries (replay st pre) + retry_increment m)%Z
    /\ (m <> transform_query -> retry_count upd = None).
Proof.
  induction limit as [| limit IH]; intros n st w pre post m upd H.
  - destruct pre; discriminate.
  - destruct (run_cases limit n st w)
      as [[e [w' [_ E]]] | [[u [w' [Hs E]]] | [u [n' [w' [Hs E]]]]]];
      rewrite E in H; cbn in H.
    + destruct pre; discriminate.
    + destruct pre as [| p pre]; [| destruct pre; discriminate].
      injection H as <- <- _.
      destruct (step_inv C _ _ _ _ _ _ _ Hs) as [w1 [Hn _]].
      split.
      * cbn. exact (node_function_retries C _ _ _ _ _ Hn).
      * intros Hm. rewrite (node_function_retry_count C _ _ _ _ _ Hn).
        destruct n; [reflexivity .. | contradiction].
    + destruct (step_inv C _ _ _ _ _ _ _ Hs) as [w1 [Hn _]].
      destruct pre as [| p pre].
      * injection H as <- <- _. split.
        -- cbn. exact (node_function_retries C _ _ _ _ _ Hn).
        -- intros Hm. rewrite (node_function_retry_count C _ _ _ _ _ Hn).
           destruct n; [reflexivity .. | contradiction].
      * injection H as <- H. cbn [app replay fold_left snd].
        exact (IH _ _ _ _ _ _ _ H).
Qed.

Lemma run_retries_count (limit : nat) :
  forall (n : node) (st : GraphState) (w : W),
    retries (final (fst (run C limit n st w)))
    = (retries st
       + Z.of_nat (count_occ node_eq_dec (trace (fst (run C limit n st w)))
                     transform_query))%Z.
Proof.
  induction limit as [| limit IH]; intros n st w.
  - cbn. lia.
  - destruct (run_cases limit n st w)
      as [[e [w' [_ ->]]] | [[u [w' [Hs ->]]] | [u [n' [w' [Hs ->]]]]]].
    + cbn. lia.
    + destruct (step_inv C _ _ _ _ _ _ _ Hs) as [w1 [Hn _]].
      cbn [fst final trace events map count_occ].
      rewrite (node_function_retries C _ _ _ _ _ Hn).
      destruct (node_eq_dec n transform_query) as [-> | Hne]; [reflexivity |].
      destruct n; cbn; try lia. contradiction.
    + destruct (step_inv C _ _ _ _ _ _ _ Hs) as [w1 [Hn _]].
      cbn [fst final after_event]. rewrite IH.
      rewrite (node_function_retries C _ _ _ _ _ Hn).
      unfold trace. cbn [events after_event map fst count_occ].
      destruct (node_eq_dec n transform_query) as [-> | Hne]; [cbn; lia |].
      destruct n; cbn; try lia. contradiction.
Qed.

(** After its first node a run never enters a source node. *)
Lemma run_trace_shape (limit : nat) :
  forall (n : node) (st : GraphState) (w : W),
    trace (fst (run C limit n st w)) = []
    \/ exists tl, trace (fst (run C limit n st w)) = n :: tl
                  /\ Forall (fun m => is_source m = false) tl.
Proof.
  induction limit as [| limit IH]; intros n st w; [left; reflexivity |].
  destruct (run_cases limit n st w)
    as [[e [w' [_ ->]]] | [[u [w' [Hs ->]]] | [u [n' [w' [Hs ->]]]]]].
  - left. reflexivity.
  - right. exists []. split; [reflexivity | constructor].
  - right. destruct (step_inv C _ _ _ _ _ _ _ Hs) as [w1 [_ [_ Ht]]].
    pose proof (next_target_not_source C _ _ _ _ _ Ht) as Hn'.
    unfold trace. cbn [fst events after_event map].
    destruct (IH n' (merge st u) w') as [E | [tl [E Htl]]];
      unfold trace in E; rewrite E.
    + exists []. split; [reflexivity | constructor].
    + exists (n' :: tl). split; [reflexivity |]. constructor; assumption.
Qed.

Lemma app_cases (limit : nat) (inputs : GraphState) (w : W) :
  (exists e w', app C limit inputs w
                = ({| events := []; final := inputs; outcome := Failed e |}, w'))
  \/ (exists n w', is_source n = true
                   /\ start_target C inputs w = (Ok (Node n), w')
                   /\ app C limit inputs w = run C limit n inputs w').
Proof.
  unfold app.
  destruct (start_target C inputs w) as [[t | e] w'] eqn:E.
  - destruct (start_target_source C _ _ _ _ E) as [-> | ->].
    + right. exists web_search, w'. repeat split.
    + right. exists retrieve, w'. repeat split.
  - left. exists e, w'. reflexivity.
Qed.

End Runs.

(** ** [retry_count] along an execution *)

(** C4. In an execution started by [query] or [query_simple],
    [retry_count] reads 0 at the start; every event of [transform_query]
    raises it by exactly 1; every other event, the regeneration after "not
    supported" among them, leaves it as it is and does not write the field;
    so it never decreases, and at the end it equals the number of
    [transform_query] events. *)
Theorem retry_count_is_monotone
  {W : Type} (C : Collaborators W) (limit : nat) (q : string)
  (inputs : GraphState) (w : W) :
  inputs = query_inputs q \/ inputs = query_simple_inputs q ->
  let ex := fst (app C limit inputs w) in
  retries inputs = 0%Z
  /\ final ex = replay inputs (events ex)
  /\ (forall pre post m upd,
        events ex = (pre ++ (m, upd) :: post)%list ->
        retries (replay inputs (pre ++ [(m, upd)])%list)
        = (retries (replay inputs pre) + retry_increment m)%Z
        /\ (retries (replay inputs pre)
            <= retries (replay inputs (pre ++ [(m, upd)])%list))%Z
        /\ (m <> transform_query -> retry_count upd = None))
  /\ retries (final ex)
     = Z.of_nat (count_occ node_eq_dec (trace ex) transform_query).
Proof.
  intros Hin ex.
  assert (H0 : retries inputs = 0%Z) by (destruct Hin as [-> | ->]; reflexivity).
  subst ex.
  destruct (app_cases C limit inputs w) as [[e [w' ->]] | [n [w' [_ [_ ->]]]]].
  - cbn [fst events final]. repeat split; try assumption.
    + destruct pre; discriminate.
    + destruct pre; discriminate.
    + destruct pre; discriminate.
  - split; [exact H0 |]. split; [apply run_final_replay |]. split.
    + intros pre post m upd H.
      destruct (run_event_retries C limit n inputs w' pre post m upd H) as [Hs Hw].
      repeat split; try assumption.
      rewrite Hs. destruct m; cbn; lia.
    + rewrite run_retries_count, H0. reflexivity.
Qed.

Lemma retry_count_is_monotone_witness :
  retries (final (fst (app Scripted.collaborators 25 (query_inputs "why")
                         ["web_search"; "page";
                          "a1"; "yes"; "no"; "a2"; "yes"; "no";
                          "a3"; "yes"; "no"; "a4"; "yes"; "no"])))
  = Z.of_nat (count_occ node_eq_dec
       (trace (fst (app Scripted.collaborators 25 (query_inputs "why")
                      ["web_search"; "page";
                       "a1"; "yes"; "no"; "a2"; "yes"; "no";
                       "a3"; "yes"; "no"; "a4"; "yes"; "no"])))
       transform_query).
Proof.
  exact (proj2 (proj2 (proj2
    (retry_count_is_monotone Scripted.collaborators 25 "why" (query_inputs "why")
       ["web_search"; "page";
        "a1"; "yes"; "no"; "a2"; "yes"; "no";
        "a3"; "yes"; "no"; "a4"; "yes"; "no"]
       (or_introl eq_refl))))).
Defined.

(** ** Routing is exclusive *)

Lemma no_source_counts (l : list node) :
  Forall (fun m => is_source m = false) l ->
  count_occ node_eq_dec l retrieve = 0 /\ count_occ node_eq_dec l web_search = 0.
Proof.
  induction 1 as [| m l Hm _ [IHr IHw]]; [split; reflexivity |].
  destruct m; cbn in Hm; try discriminate; cbn; split; assumption.
Qed.

(** C6. In every execution of the graph, whatever the inputs and whatever
    the oracles answer, if [generate] runs at all then exactly one execution
    of [retrieve] or [web_search] comes before its first run: the first
    event; and neither of the two runs again later. *)
Theorem exactly_one_source_before_generate
  {W : Type} (C : Collaborators W) (limit : nat) (inputs : GraphState) (w : W)
  (pre post : list node) :
  trace (fst (app C limit inputs w)) = (pre ++ generate :: post)%list ->
  ~ In generate pre ->
  count_occ node_eq_dec pre retrieve + count_occ node_eq_dec pre web_search = 1
  /\ count_occ node_eq_dec (trace (fst (app C limit inputs w))) retrieve
     + count_occ node_eq_dec (trace (fst (app C limit inputs w))) web_search = 1
  /\ (exists n, is_source n = true /\ hd_error pre = Some n).
Proof.
  intros Ht Hfirst.
  destruct (app_cases C limit inputs w) as [[e [w' E]] | [n [w' [Hsrc [_ E]]]]];
    rewrite E in Ht |- *.
  - destruct pre; discriminate.
  - destruct (run_trace_shape C limit n inputs w') as [E0 | [tl [E1 Htl]]].
    + rewrite E0 in Ht. destruct pre; discriminate.
    + rewrite E1 in Ht |- *.
      destruct pre as [| p pre].
      * injection Ht as Hn _. subst n. discriminate.
      * injection Ht as <- Ht. subst tl.
        destruct (no_source_counts _ Htl) as [Hr' Hw'].
        apply Forall_app in Htl. destruct Htl as [Hpre _].
        destruct (no_source_counts _ Hpre) as [Hr Hw].
        repeat split.
        -- cbn [count_occ]. rewrite Hr, Hw.
           destruct n; cbn in Hsrc; try discriminate; reflexivity.
        -- cbn [count_occ]. rewrite Hr', Hw'.
           destruct n; cbn in Hsrc; try discriminate; reflexivity.
        -- exists n. split; [assumption | reflexivity].
Qed.

Lemma exactly_one_source_before_generate_witness :
  count_occ node_eq_dec [retrieve; grade_documents; transform_query] retrieve
  + count_occ node_eq_dec [retrieve; grade_documents; transform_query] web_search
  = 1.
Proof.
  refine (proj1 (exactly_one_source_before_generate Scripted.collaborators 25
    (query_inputs "why") ["vectorstore"; "no"; "no"; "answer"; "yes"; "yes"]
    [retrieve; grade_documents; transform_query] [] eq_refl _)).
  cbn. intros [H | [H | [H | []]]]; discriminate.
Defined.

(** ** The "not supported" edge *)

Section NotSupported.

Context {W : Type}.
Variable C : Collaborators W.

Lemma generate_step_not_grounded (st : GraphState) (q g : string)
  (docs : list Document) (w w1 w2 : W) :
  question st = Some q ->
  documents st = Some docs ->
  chain_invoke C (RAGChain_format_docs docs) q w = (Ok g, w1) ->
  hallucination_grader_invoke C (String.concat newline (map page_content docs)) g w1
    = (Ok "no", w2) ->
  let upd := {| question := Some q; generation := Some g;
                documents := Some docs; retry_count := None |} in
  step C generate st w = (Ok (upd, merge st upd, Node generate), w2).
Proof.
  intros Hq Hd Hc Hh upd.
  assert (Hn : node_function C generate st w = (Ok upd, w1)).
  { cbn [node_function]. unfold _generate. rewrite Hq, Hd. cbn [getitem].
    rewrite !bind_ret. unfold RAGChain_generate.
    rewrite (bind_ok _ _ _ _ _ Hc). reflexivity. }
  assert (Hp : _grade_generation_v_documents_and_question C (merge st upd) w1
               = (Ok (Some "not supported"), w2)).
  { apply (grade_generation_not_grounded C (merge st upd) q g docs
             eq_refl eq_refl eq_refl "no" w1 w2 Hh). discriminate. }
  unfold step. rewrite (bind_ok _ _ _ _ _ Hn).
  cbn [next_target]. unfold bind at 1. unfold bind at 1. rewrite Hp.
  reflexivity.
Qed.

Hypothesis always_ungrounded :
  forall d g w, exists w1, hallucination_grader_invoke C d g w = (Ok "no", w1).
Hypothesis generator_answers :
  forall c q w, exists g w1, chain_invoke C c q w = (Ok g, w1).

(** With a groundedness grader that never accepts, [generate] follows
    [generate] for as many steps as the run is given. *)
Lemma not_grounded_loop (limit : nat) :
  forall (st : GraphState) (q : string) (docs : list Document) (w : W),
    question st = Some q ->
    documents st = Some docs ->
    trace (fst (run C limit generate st w)) = repeat generate limit
    /\ outcome (fst (run C limit generate st w)) = Interrupted generate
    /\ retry_count (final (fst (run C limit generate st w))) = retry_count st.
Proof.
  induction limit as [| limit IH]; intros st q docs w Hq Hd.
  - repeat split.
  - destruct (generator_answers (RAGChain_format_docs docs) q w) as [g [w1 Hc]].
    destruct (always_ungrounded (String.concat newline (map page_content docs)) g w1)
      as [w2 Hh].
    pose proof (generate_step_not_grounded st q g docs w w1 w2 Hq Hd Hc Hh) as Hs.
    cbv zeta in Hs. cbn [run]. rewrite Hs.
    match goal with
    | |- context [run C limit generate ?s w2] =>
        destruct (IH s q docs w2 eq_refl eq_refl) as [Ht [Ho Hr]];
        destruct (run C limit generate s w2) as [ex w3]
    end.
    cbn [fst] in *. unfold trace in *. cbn [events after_event map fst repeat].
    rewrite Ht. repeat split; [exact Ho |].
    cbn [final after_event]. rewrite Hr. cbn. reflexivity.
Qed.

End NotSupported.

(** C3. When the groundedness verdict on a state is "no", the predicate
    after [generate] returns "not supported" and selects the edge back to
    [generate], whatever [retry_count] is.  The adequacy grader is not asked:
    the world is left as the groundedness grader left it, and no other
    adequacy grader changes the result.  The step writes no [retry_count].
    Nothing bounds the loop: with a groundedness grader that always says
    "no", a run of any length consists of [generate] steps only and is still
    pending at [generate], with [retry_count] untouched. *)
Theorem not_supported_regenerates_without_budget
  {W : Type} (C : Collaborators W) :
  (forall st q g docs w w1,
      question st = Some q -> documents st = Some docs -> generation st = Some g ->
      hallucination_grader_invoke C (String.concat newline (map page_content docs)) g w
        = (Ok "no", w1) ->
      _grade_generation_v_documents_and_question C st w
        = (Ok (Some "not supported"), w1)
      /\ next_target C generate st w = (Ok (Node generate), w1)
      /\ (forall f, _grade_generation_v_documents_and_question
                      (with_answer_grader C f) st w
                    = (Ok (Some "not supported"), w1)))
  /\ (forall st q g docs w w1 w2,
      question st = Some q -> documents st = Some docs ->
      chain_invoke C (RAGChain_format_docs docs) q w = (Ok g, w1) ->
      hallucination_grader_invoke C (String.concat newline (map page_content docs)) g w1
        = (Ok "no", w2) ->
      exists upd,
        step C generate st w = (Ok (upd, merge st upd, Node generate), w2)
        /\ retry_count (merge st upd) = retry_count st
        /\ retries (merge st upd) = retries st)
  /\ ((forall d g w, exists w1, hallucination_grader_invoke C d g w = (Ok "no", w1)) ->
      (forall c q w, exists g w1, chain_invoke C c q w = (Ok g, w1)) ->
      forall limit st q docs w,
        question st = Some q -> documents st = Some docs ->
        trace (fst (run C limit generate st w)) = repeat generate limit
        /\ outcome (fst (run C limit generate st w)) = Interrupted generate
        /\ retry_count (final (fst (run C limit generate st w))) = retry_count st).
Proof.
  split; [| split].
  - intros st q g docs w w1 Hq Hd Hg Hh.
    assert (Hp : _grade_generation_v_documents_and_question C st w
                 = (Ok (Some "not supported"), w1)).
    { apply (grade_generation_not_grounded C st q g docs Hq Hd Hg "no" w w1 Hh).
      discriminate. }
    repeat split.
    + exact Hp.
    + cbn [next_target]. rewrite (bind_ok _ _ _ _ _ Hp). reflexivity.
    + intros f.
      apply (grade_generation_not_grounded (with_answer_grader C f) st q g docs
               Hq Hd Hg "no" w w1 Hh).
      discriminate.
  - intros st q g docs w w1 w2 Hq Hd Hc Hh.
    eexists. split; [exact (generate_step_not_grounded C st q g docs w w1 w2 Hq Hd Hc Hh) |].
    split; reflexivity.
  - intros Hnever Hgen limit st q docs w Hq Hd.
    exact (not_grounded_loop C Hnever Hgen limit st q docs w Hq Hd).
Qed.

Lemma not_supported_regenerates_without_budget_witness :
  trace (fst (run Scripted.never_grounded 6 generate
                (Scripted.graded_state (Some 7%Z)) ["a1"; "a2"]))
  = repeat generate 6
  /\ outcome (fst (run Scripted.never_grounded 6 generate
                     (Scripted.graded_state (Some 7%Z)) ["a1"; "a2"]))
     = Interrupted generate
  /\ retry_count (final (fst (run Scripted.never_grounded 6 generate
                                (Scripted.graded_state (Some 7%Z)) ["a1"; "a2"])))
     = Some 7%Z.
Proof.
  refine (proj2 (proj2 (not_supported_regenerates_without_budget
                          Scripted.never_grounded)) _ _ 6
            (Scripted.graded_state (Some 7%Z)) "why" Scripted.two_passages
            ["a1"; "a2"] eq_refl eq_refl).
  - intros d g w. exists w. reflexivity.
  - intros c q w. destruct w as [| a rest].
    + exists "answer", []. reflexivity.
    + exists a, rest. reflexivity.
Defined.

(** ** [query] and [query_simple] *)

Section Defaulting.

Context {W : Type}.
Variable C : Collaborators W.

Lemma same_reads_merge (s1 s2 upd : GraphState) :
  same_reads s1 s2 -> same_reads (merge s1 upd) (merge s2 upd).
Proof.
  intros [Hq [Hg [Hd Hr]]]. unfold same_reads.
  rewrite !retries_merge. cbn [merge question generation documents].
  rewrite Hq, Hg, Hd, Hr. repeat split.
Qed.

Lemma node_function_same_reads (n : node) (s1 s2 : GraphState) (w : W) :
  same_reads s1 s2 -> node_function C n s1 w = node_function C n s2 w.
Proof.
  intros [Hq [Hg [Hd Hr]]].
  destruct n; cbn [node_function];
    unfold _web_search, _retrieve, _grade_documents, _generate, _transform_query;
    fold (retries s1); fold (retries s2);
    rewrite Hq, ?Hd, ?Hr; reflexivity.
Qed.

Lemma next_target_same_reads (n : node) (s1 s2 : GraphState) (w : W) :
  same_reads s1 s2 -> next_target C n s1 w = next_target C n s2 w.
Proof.
  intros [Hq [Hg [Hd Hr]]].
  destruct n; cbn [next_target]; try reflexivity.
  - unfold _decide_to_generate. rewrite Hd. reflexivity.
  - unfold _grade_generation_v_documents_and_question.
    fold (retries s1); fold (retries s2).
    rewrite Hq, Hg, Hd, Hr. reflexivity.
Qed.

Lemma start_target_same_reads (s1 s2 : GraphState) (w : W) :
  same_reads s1 s2 -> start_target C s1 w = start_target C s2 w.
Proof.
  intros [Hq _]. unfold start_target, _route_question. rewrite Hq. reflexivity.
Qed.

Lemma run_same_reads (limit : nat) :
  forall (n : node) (s1 s2 : GraphState) (w : W),
    same_reads s1 s2 ->
    events (fst (run C limit n s1 w)) = events (fst (run C limit n s2 w))
    /\ outcome (fst (run C limit n s1 w)) = outcome (fst (run C limit n s2 w))
    /\ same_reads (final (fst (run C limit n s1 w))) (final (fst (run C limit n s2 w)))
    /\ snd (run C limit n s1 w) = snd (run C limit n s2 w).
Proof.
  induction limit as [| limit IH]; intros n s1 s2 w R.
  - cbn. repeat split; apply R.
  - cbn [run]. unfold step, bind.
    rewrite (node_function_same_reads n s1 s2 w R).
    destruct (node_function C n s2 w) as [[upd | e] w1].
    + pose proof (same_reads_merge s1 s2 upd R) as R'.
      rewrite (next_target_same_reads n _ _ w1 R').
      destruct (next_target C n (merge s2 upd) w1) as [[[n' |] | e] w2]; cbn [ret].
      * destruct (IH n' _ _ w2 R') as [He [Ho [Hf Hw]]].
        destruct (run C limit n' (merge s1 upd) w2) as [ex1 w3].
        destruct (run C limit n' (merge s2 upd) w2) as [ex2 w4].
        cbn [fst snd] in *. cbn [events after_event outcome final].
        rewrite He. repeat split; try assumption; apply Hf.
      * cbn. repeat split; apply R'.
      * cbn. repeat split; apply R.
    + cbn. repeat split; apply R.
Qed.

Lemma app_same_reads (limit : nat) (s1 s2 : GraphState) (w : W) :
  same_reads s1 s2 ->
  events (fst (app C limit s1 w)) = events (fst (app C limit s2 w))
  /\ outcome (fst (app C limit s1 w)) = outcome (fst (app C limit s2 w))
  /\ same_reads (final (fst (app C limit s1 w))) (final (fst (app C limit s2 w)))
  /\ snd (app C limit s1 w) = snd (app C limit s2 w).
Proof.
  intros R. unfold app. rewrite (start_target_same_reads s1 s2 w R).
  destruct (start_target C s2 w) as [[[n |] | e] w1].
  - apply run_same_reads. exact R.
  - cbn. repeat split; apply R.
  - cbn. repeat split; apply R.
Qed.

(** A run that reaches [END] ends with an event of [generate], whose
    update carries the generation the final state holds. *)
Lemma run_finished_last (limit : nat) :
  forall (n : node) (st : GraphState) (w : W),
    outcome (fst (run C limit n st w)) = Finished ->
    exists upd g,
      last (map Some (events (fst (run C limit n st w)))) None = Some (generate, upd)
      /\ generation upd = Some g
      /\ generation (final (fst (run C limit n st w))) = Some g.
Proof.
  induction limit as [| limit IH]; intros n st w Hfin; [discriminate |].
  destruct (run_cases C limit n st w)
    as [[e [w' [_ E]]] | [[u [w' [Hs E]]] | [u [n' [w' [Hs E]]]]]];
    rewrite E in Hfin |- *; cbn [fst] in *.
  - discriminate.
  - destruct (step_inv C _ _ _ _ _ _ _ Hs) as [w1 [Hn [_ Ht]]].
    apply next_target_end in Ht. subst n.
    cbn [node_function] in Hn. unfold _generate in Hn. invert_run Hn.
    injection Hn as <- _.
    eexists. eexists. cbn. repeat split.
  - cbn [outcome after_event] in Hfin.
    destruct (IH n' _ w' Hfin) as [upd [g [Hl [Hg Hf]]]].
    exists upd, g. cbn [events after_event final map].
    repeat split; try assumption.
    destruct (events (fst (run C limit n' (merge st u) w'))) as [| ev evs];
      [discriminate | exact Hl].
Qed.

End Defaulting.

(** C10. Started without [retry_count], as [query_simple] does, the graph
    behaves as it does started with [retry_count = 0], as [query] does: both
    inputs read as 0 retries, the two executions have the same events, the
    same outcome, the same final generation and leave the oracles in the same
    state, and [query_simple] returns what [query] returns. *)
Theorem missing_retry_count_defaults_to_zero
  {W : Type} (C : Collaborators W) (cfg : Config) (limit : nat) (q : string) (w : W) :
  let simple := app C limit (query_simple_inputs q) w in
  let streamed := app C limit (query_inputs q) w in
  retries (query_simple_inputs q) = retries (query_inputs q)
  /\ events (fst simple) = events (fst streamed)
  /\ outcome (fst simple) = outcome (fst streamed)
  /\ generation (final (fst simple)) = generation (final (fst streamed))
  /\ snd simple = snd streamed
  /\ query_simple C cfg limit q w = query C cfg limit q w.
Proof.
  intros simple streamed.
  assert (R : same_reads (query_simple_inputs q) (query_inputs q))
    by (repeat split).
  destruct (app_same_reads C limit _ _ w R) as [He [Ho [Hf Hw]]].
  fold simple in He, Ho, Hf, Hw. fold streamed in He, Ho, Hf, Hw.
  repeat split; try assumption; [apply Hf |].
  unfold query_simple, query, bind.
  destruct (Config_validate cfg w) as [[b | e] w0] eqn:Ev; [| reflexivity].
  assert (w0 = w) as ->.
  { unfold Config_validate in Ev.
    destruct (negb (truthy (GROQ_API_KEY cfg))); [discriminate |].
    destruct (negb (truthy (TAVILY_API_KEY cfg))); [discriminate |].
    apply ret_inv in Ev. apply Ev. }
  unfold app_invoke, app_stream_last.
  fold simple. fold streamed.
  destruct simple as [ex1 w1] eqn:E1. destruct streamed as [ex2 w2] eqn:E2.
  cbn [fst snd] in *. subst w2. rewrite Ho.
  destruct (outcome ex2) eqn:Eo; try reflexivity.
  rewrite <- He.
  assert (Hlast : exists upd g,
             last (map Some (events ex1)) None = Some (generate, upd)
             /\ generation upd = Some g /\ generation (final ex1) = Some g).
  { subst simple. unfold app in E1.
    destruct (start_target C (query_simple_inputs q) w) as [[[n |] | e] w3] eqn:Es.
    - pose proof (run_finished_last C limit n (query_simple_inputs q) w3) as Hr.
      rewrite E1 in Hr. cbn [fst] in Hr. apply Hr. exact Ho.
    - destruct (start_target_source C _ _ _ _ Es); discriminate.
    - injection E1 as <- _. discriminate. }
  destruct Hlast as [upd [g [Hl [Hg Hfg]]]].
  rewrite Hl. cbn [option_map snd ret]. rewrite Hg, Hfg. reflexivity.
Qed.


(** * Further properties of the engine *)

(** ** The edge after [grade_documents] *)

(** X1. Empty evidence: on a state with a question and documents, the
    [grade_documents] step goes on to [transform_query] exactly when no
    passage got the verdict "yes" (in particular when there was no passage
    at all), and to [generate] otherwise; the state then holds the kept
    passages. *)
Theorem grade_documents_step_target
  {W : Type} (C : Collaborators W) (st : GraphState) (q : string)
  (docs : list Document) (vs : list string) (w w' : W) :
  question st = Some q ->
  documents st = Some docs ->
  relevance_verdicts C q docs w = (Ok vs, w') ->
  exists upd,
    step C grade_documents st w
    = (Ok (upd, merge st upd,
           match kept_by docs vs with
           | [] => Node transform_query
           | _ => Node generate
           end), w')
    /\ documents (merge st upd) = Some (kept_by docs vs)
    /\ question (merge st upd) = Some q.
Proof.
  intros Hq Hd Hv.
  assert (Hn : _grade_documents C st w
               = (Ok {| question := Some q; generation := None;
                        documents := Some (kept_by docs vs);
                        retry_count := None |}, w')).
  { unfold _grade_documents. rewrite Hq, Hd. cbn [getitem]. rewrite !bind_ret.
    unfold bind at 1. rewrite grade_loop_spec, Hv. reflexivity. }
  exists {| question := Some q; generation := None;
            documents := Some (kept_by docs vs); retry_count := None |}.
  split; [| split].
  - unfold step. cbn [node_function]. rewrite (bind_ok _ _ _ _ _ Hn).
    cbn [next_target]. unfold _decide_to_generate, bind.
    cbn [merge documents or_else getitem ret].
    destruct (kept_by docs vs); reflexivity.
  - reflexivity.
  - reflexivity.
Qed.

Lemma grade_documents_step_target_witness :
  exists upd,
    step Scripted.collaborators grade_documents (Scripted.graded_state None)
      ["no"; "nope"]
    = (Ok (upd, merge (Scripted.graded_state None) upd, Node transform_query), [])
    /\ documents (merge (Scripted.graded_state None) upd) = Some []
    /\ question (merge (Scripted.graded_state None) upd) = Some "why".
Proof.
  exact (grade_documents_step_target Scripted.collaborators
           (Scripted.graded_state None) "why" Scripted.two_passages
           ["no"; "nope"] ["no"; "nope"] [] eq_refl eq_refl eq_refl).
Defined.

(** ** Retrieval before the vector store exists *)

(** X2. When no vector store was created or loaded and the router sends the
    question to the vector store, the execution fails in [retrieve] with the
    [ValueError] of the retriever: no event is streamed, nothing is retried,
    and with a valid configuration both [query_simple] and [query] raise that
    error to the caller. *)
Theorem retrieve_without_vectorstore_fails
  {W : Type} (C : Collaborators W) (cfg : Config) (limit : nat)
  (inputs : GraphState) (q : string) (w w1 : W) :
  retriever_invoke C = None ->
  question inputs = Some q ->
  router_invoke C q w = (Ok "vectorstore", w1) ->
  let e := ValueError
    "Vectorstore not initialized. Call create_vectorstore() or load_vectorstore() first." in
  app C (S limit) inputs w
  = ({| events := []; final := inputs; outcome := Failed e |}, w1)
  /\ (truthy (GROQ_API_KEY cfg) = true -> truthy (TAVILY_API_KEY cfg) = true ->
      query_simple C cfg (S limit) q w = (Raise e, w1)
      /\ query C cfg (S limit) q w = (Raise e, w1)).
Proof.
  intros Hr Hq Hroute e.
  assert (Happ : forall st, question st = Some q ->
            app C (S limit) st w
            = ({| events := []; final := st; outcome := Failed e |}, w1)).
  { intros st Hst. unfold app, start_target, _route_question, bind.
    rewrite Hst. cbn [getitem ret]. unfold QuestionRouter_route.
    rewrite Hroute. cbn.
    unfold step, bind. cbn [node_function]. unfold _retrieve, bind.
    rewrite Hst. cbn [getitem ret].
    unfold GroqDocumentRetriever_retrieve. rewrite Hr. reflexivity. }
  split; [exact (Happ inputs Hq) |].
  intros Hg Ht.
  assert (Hv : Config_validate cfg w = (Ok true, w)).
  { unfold Config_validate. rewrite Hg, Ht. reflexivity. }
  split.
  - unfold query_simple. rewrite (bind_ok _ _ _ _ _ Hv).
    unfold bind, app_invoke. rewrite (Happ (query_simple_inputs q) eq_refl).
    reflexivity.
  - unfold query. rewrite (bind_ok _ _ _ _ _ Hv).
    unfold bind, app_stream_last. rewrite (Happ (query_inputs q) eq_refl).
    reflexivity.
Qed.

Lemma retrieve_without_vectorstore_fails_witness :
  query_simple (without_retriever Scripted.collaborators) Scripted.keys 25 "why"
    ["vectorstore"; "left"]
  = (Raise (ValueError
       "Vectorstore not initialized. Call create_vectorstore() or load_vectorstore() first."),
     ["left"]).
Proof.
  exact (proj1 (proj2
    (retrieve_without_vectorstore_fails (without_retriever Scripted.collaborators)
       Scripted.keys 24 (query_inputs "why") "why" ["vectorstore"; "left"] ["left"]
       eq_refl eq_refl eq_refl) eq_refl eq_refl)).
Defined.

(** ** The configuration gate *)

(** X3. [query] and [query_simple] check the configuration first: without a
    Groq key (absent or empty) both raise the Groq [ValueError], otherwise
    without a Tavily key both raise the Tavily one; in either case no
    collaborator has been called.  The OpenAI key is not required. *)
Theorem missing_key_fails_before_any_call
  {W : Type} (C : Collaborators W) (cfg : Config) (limit : nat) (q : string) (w : W) :
  (truthy (GROQ_API_KEY cfg) = false ->
   let e := ValueError "GROQ_API_KEY environment variable is required" in
   query C cfg limit q w = (Raise e, w)
   /\ query_simple C cfg limit q w = (Raise e, w))
  /\ (truthy (GROQ_API_KEY cfg) = true -> truthy (TAVILY_API_KEY cfg) = false ->
      let e := ValueError "TAVILY_API_KEY environment variable is required" in
      query C cfg limit q w = (Raise e, w)
      /\ query_simple C cfg limit q w = (Raise e, w))
  /\ (truthy (GROQ_API_KEY cfg) = true -> truthy (TAVILY_API_KEY cfg) = true ->
      Config_validate cfg w = (Ok true, w)).
Proof.
  split; [| split].
  - intros Hg e. split.
    + unfold query, bind, Config_validate. rewrite Hg. reflexivity.
    + unfold query_simple, bind, Config_validate. rewrite Hg. reflexivity.
  - intros Hg Ht e. split.
    + unfold query, bind, Config_validate. rewrite Hg, Ht. reflexivity.
    + unfold query_simple, bind, Config_validate. rewrite Hg, Ht. reflexivity.
  - intros Hg Ht. unfold Config_validate. rewrite Hg, Ht. reflexivity.
Qed.

Lemma missing_key_fails_before_any_call_witness :
  query Scripted.collaborators
    {| GROQ_API_KEY := Some ""; OPENAI_API_KEY := Some "sk";
       TAVILY_API_KEY := Some "tvly" |} 25 "why" ["vectorstore"]
  = (Raise (ValueError "GROQ_API_KEY environment variable is required"),
     ["vectorstore"]).
Proof.
  exact (proj1 (proj1
    (missing_key_fails_before_any_call Scripted.collaborators
       {| GROQ_API_KEY := Some ""; OPENAI_API_KEY := Some "sk";
          TAVILY_API_KEY := Some "tvly" |} 25 "why" ["vectorstore"]) eq_refl)).
Defined.

(** ** The [generate] step when the answer is grounded *)

Section Grounded.

Context {W : Type}.
Variable C : Collaborators W.



End Grounded.



(** ** What [query] and [query_simple] return *)

Lemma Config_validate_world {W : Type} (cfg : Config) (b : bool) (w w0 : W) :
  Config_validate cfg w = (Ok b, w0) -> w0 = w.
Proof.
  unfold Config_validate.
  destruct (negb (truthy (GROQ_API_KEY cfg))); [discriminate |].
  destruct (negb (truthy (TAVILY_API_KEY cfg))); [discriminate |].
  intros H. apply ret_inv in H. apply H.
Qed.

Lemma app_finished_last {W : Type} (C : Collaborators W) (limit : nat)
  (inputs : GraphState) (w : W) :
  outcome (fst (app C limit inputs w)) = Finished ->
  exists upd g,
    last (map Some (events (fst (app C limit inputs w)))) None = Some (generate, upd)
    /\ generation upd = Some g
    /\ generation (final (fst (app C limit inputs w))) = Some g.
Proof.
  destruct (app_cases C limit inputs w) as [[e [w1 ->]] | [n [w1 [_ [_ ->]]]]].
  - discriminate.
  - apply run_finished_last.
Qed.

(** X7. An answer that [query_simple] or [query] returns is the generation
    written by the last [generate] step of an execution that reached [END]:
    the fallback text "No answer generated" is returned only if the
    generator itself produced it. *)
Theorem returned_answer_is_last_generation
  {W : Type} (C : Collaborators W) (cfg : Config) (limit : nat) (q a : string)
  (w w' : W) :
  (query_simple C cfg limit q w = (Ok a, w') ->
   outcome (fst (app C limit (query_simple_inputs q) w)) = Finished
   /\ exists upd,
        last (map Some (events (fst (app C limit (query_simple_inputs q) w)))) None
        = Some (generate, upd)
        /\ generation upd = Some a)
  /\ (query C cfg limit q w = (Ok a, w') ->
      outcome (fst (app C limit (query_inputs q) w)) = Finished
      /\ exists upd,
           last (map Some (events (fst (app C limit (query_inputs q) w)))) None
           = Some (generate, upd)
           /\ generation upd = Some a).
Proof.
  split; intros H.
  - unfold query_simple in H.
    apply bind_inv in H. destruct H as [b [w0 [Hv H]]].
    apply Config_validate_world in Hv. subst w0.
    apply bind_inv in H. destruct H as [res [w1 [Hi H]]].
    apply ret_inv in H. destruct H as [-> ->].
    unfold app_invoke in Hi.
    pose proof (app_finished_last C limit (query_simple_inputs q) w) as Hl.
    destruct (app C limit (query_simple_inputs q) w) as [ex w2].
    cbn [fst] in *.
    destruct (outcome ex); try discriminate.
    injection Hi as <- _.
    destruct (Hl eq_refl) as [upd [g [Hlast [Hg Hf]]]].
    split; [reflexivity |]. exists upd. split; [exact Hlast |].
    rewrite Hf, Hg. reflexivity.
  - unfold query in H.
    apply bind_inv in H. destruct H as [b [w0 [Hv H]]].
    apply Config_validate_world in Hv. subst w0.
    apply bind_inv in H. destruct H as [value [w1 [Hi H]]].
    unfold app_stream_last in Hi.
    pose proof (app_finished_last C limit (query_inputs q) w) as Hl.
    destruct (app C limit (query_inputs q) w) as [ex w2].
    cbn [fst] in *.
    destruct (outcome ex); try discriminate.
    injection Hi as <- _.
    destruct (Hl eq_refl) as [upd [g [Hlast [Hg Hf]]]].
    rewrite Hlast in H. cbn [option_map snd] in H.
    apply ret_inv in H. destruct H as [-> ->].
    split; [reflexivity |]. exists upd. split; [exact Hlast |].
    rewrite Hg. reflexivity.
Qed.

Lemma returned_answer_is_last_generation_witness :
  outcome (fst (app Scripted.collaborators 25 (query_simple_inputs "why")
                  ["web_search"; "page"; "a1"; "no"; "a2"; "yes"; "yes"]))
  = Finished
  /\ exists upd,
       last (map Some (events (fst (app Scripted.collaborators 25
                                      (query_simple_inputs "why")
                                      ["web_search"; "page"; "a1"; "no";
                                       "a2"; "yes"; "yes"])))) None
       = Some (generate, upd)
       /\ generation upd = Some "a2".
Proof.
  exact (proj1 (returned_answer_is_last_generation Scripted.collaborators
                  Scripted.keys 25 "why" "a2"
                  ["web_search"; "page"; "a1"; "no"; "a2"; "yes"; "yes"] [])
           eq_refl).
Defined.

(** ** The retry budget *)

Section Budget.

Context {W : Type}.
Variable C : Collaborators W.

Lemma within_budget_le (n : node) (st : GraphState) :
  within_budget n st -> (retries st <= 3)%Z.
Proof. destruct n; cbn; lia. Qed.

(** "not useful" is answered only below three retries. *)
Lemma not_useful_below_ceiling (st : GraphState) (w w' : W) :
  next_target C generate st w = (Ok (Node transform_query), w') ->
  (retries st <= 2)%Z.
Proof.
  cbn [next_target]. intros H.
  apply bind_inv in H. destruct H as [l [w1 [Hp H]]].
  unfold _grade_generation_v_documents_and_question in Hp.
  unfold HallucinationGrader_grade, AnswerGrader_grade in Hp.
  fold (retries st) in Hp.
  invert_run Hp; injection Hp as <- <-; try discriminate H.
  match goal with
  | E : (3 <=? retries st)%Z = false |- _ => apply Z.leb_gt in E; lia
  end.
Qed.

Lemma step_budget (n n' : node) (st upd st' : GraphState) (w w' : W) :
  within_budget n st ->
  step C n st w = (Ok (upd, st', Node n'), w') ->
  within_budget n' st'.
Proof.
  intros Hb Hs.
  destruct (step_inv C _ _ _ _ _ _ _ Hs) as [w1 [Hn [-> Ht]]].
  pose proof (node_function_retries C _ _ _ _ _ Hn) as Hr.
  destruct n; cbn [retry_increment within_budget] in *.
  - cbn [next_target] in Ht. apply ret_inv in Ht. destruct Ht as [E _].
    injection E as ->. cbn. lia.
  - cbn [next_target] in Ht. apply ret_inv in Ht. destruct Ht as [E _].
    injection E as ->. cbn. lia.
  - cbn [next_target] in Ht.
    apply bind_inv in Ht. destruct Ht as [l [w2 [_ Ht]]].
    apply resolve_inv in Ht. destruct Ht as [l' [_ [Ht _]]].
    apply decide_path_map_targets in Ht.
    destruct Ht as [E | E]; injection E as ->; cbn; lia.
  - destruct n'; try (cbn; lia).
    + apply next_target_not_source in Ht. discriminate.
    + cbn [next_target] in Ht.
      apply bind_inv in Ht. destruct Ht as [l [w2 [_ Ht]]].
      apply resolve_inv in Ht. destruct Ht as [l' [_ [Ht _]]].
      apply grade_path_map_targets in Ht.
      destruct Ht as [E | [E | E]]; discriminate.
    + apply not_useful_below_ceiling in Ht. cbn. exact Ht.
  - cbn [next_target] in Ht. apply ret_inv in Ht. destruct Ht as [E _].
    injection E as ->. cbn. lia.
Qed.

Lemma run_budget (limit : nat) :
  forall (n : node) (st : GraphState) (w : W),
    within_budget n st ->
    (retries (final (fst (run C limit n st w))) <= 3)%Z.
Proof.
  induction limit as [| limit IH]; intros n st w Hb.
  - cbn. exact (within_budget_le n st Hb).
  - destruct (run_cases C limit n st w)
      as [[e [w' [_ ->]]] | [[u [w' [Hs ->]]] | [u [n' [w' [Hs ->]]]]]];
      cbn [fst final after_event].
    + exact (within_budget_le n st Hb).
    + destruct (step_inv C _ _ _ _ _ _ _ Hs) as [w1 [Hn [_ Ht]]].
      apply next_target_end in Ht. subst n.
      rewrite (node_function_retries C _ _ _ _ _ Hn). cbn in *. lia.
    + apply IH. exact (step_budget _ _ _ _ _ _ _ Hb Hs).
Qed.

End Budget.

(** X4. The retry budget: in every execution whose inputs hold at most two
    retries (those of [query] and [query_simple] hold none), whatever the
    oracles answer, [retry_count] never exceeds 3 at the end, and
    [transform_query] has run at most [3 - retry_count] times, the initial
    [retry_count] being that of the inputs. *)
Theorem retry_count_never_exceeds_three
  {W : Type} (C : Collaborators W) (limit : nat) (inputs : GraphState) (w : W) :
  (retries inputs <= 2)%Z ->
  let ex := fst (app C limit inputs w) in
  (retries (final ex) <= 3)%Z
  /\ (Z.of_nat (count_occ node_eq_dec (trace ex) transform_query)
      <= 3 - retries inputs)%Z.
Proof.
  intros Hin ex. subst ex.
  destruct (app_cases C limit inputs w) as [[e [w' ->]] | [n [w' [Hsrc [_ ->]]]]].
  - unfold trace. cbn [fst final events map count_occ Z.of_nat]. lia.
  - assert (Hb : within_budget n inputs)
      by (destruct n; cbn in Hsrc |- *; try discriminate; lia).
    pose proof (run_budget C limit n inputs w' Hb) as Hf.
    pose proof (run_retries_count C limit n inputs w') as Hc.
    split; [exact Hf | lia].
Qed.

Lemma retry_count_never_exceeds_three_witness :
  (retries (final (fst (app Scripted.collaborators 25 (query_inputs "why")
                          ["vectorstore"; "no"; "no";
                           "a1"; "yes"; "no"; "a2"; "yes"; "no";
                           "a3"; "yes"; "no"; "a4"; "yes"; "no"]))) <= 3)%Z
  /\ (Z.of_nat (count_occ node_eq_dec
        (trace (fst (app Scripted.collaborators 25 (query_inputs "why")
                       ["vectorstore"; "no"; "no";
                        "a1"; "yes"; "no"; "a2"; "yes"; "no";
                        "a3"; "yes"; "no"; "a4"; "yes"; "no"])))
        transform_query) <= 3 - retries (query_inputs "why"))%Z.
Proof.
  apply (retry_count_never_exceeds_three Scripted.collaborators 25
           (query_inputs "why")
           ["vectorstore"; "no"; "no";
            "a1"; "yes"; "no"; "a2"; "yes"; "no";
            "a3"; "yes"; "no"; "a4"; "yes"; "no"]).
  unfold retries. simpl. lia.
Defined.

(** ** Termination when every answer is grounded *)

Section Liveness.

Context {W : Type}.
Variable C : Collaborators W.


Hypothesis grounded :
  forall d g w, exists w1, hallucination_grader_invoke C d g w = (Ok "yes", w1).
Hypothesis generator_answers :
  forall c q w, exists g w1, chain_invoke C c q w = (Ok g, w1).
Hypothesis adequacy_answers :
  forall q g w, exists v w1, answer_grader_invoke C q g w = (Ok v, w1).


Variable retriever : string -> M W (list Document).
Hypothesis vectorstore_ready : retriever_invoke C = Some retriever.
Hypothesis retriever_answers :
  forall q w, exists docs w1, retriever q w = (Ok docs, w1).
Hypothesis relevance_answers :
  forall q d w, exists v w1, document_grader_invoke C q d w = (Ok v, w1).
Hypothesis router_answers :
  forall q w, exists l w1,
    router_invoke C q w = (Ok l, w1) /\ (l = "web_search" \/ l = "vectorstore").





End Liveness.



(** Nine steps are reached: three inadequate answers after a retrieval. *)
Example nine_steps_are_reached :
  trace (fst (app well_behaved 9 (query_simple_inputs "why")
                ["vectorstore"; "yes"; "yes";
                 "a1"; "no"; "a2"; "no"; "a3"; "no"; "a4"; "no"]))
  = [retrieve; grade_documents; generate; transform_query; generate;
     transform_query; generate; transform_query; generate].
Proof. reflexivity. Qed.

(** ** What the nodes write *)

Section Writes.

Context {W : Type}.
Variable C : Collaborators W.

(** Every node returns the question it read and a list of documents; only
    [generate] returns a generation. *)
Lemma node_function_writes (n : node) (st upd : GraphState) (w w' : W) :
  node_function C n st w = (Ok upd, w') ->
  question upd = question st
  /\ (exists q, question st = Some q)
  /\ (exists docs, documents upd = Some docs)
  /\ (n <> generate -> generation upd = None)
  /\ (n = generate \/ n = transform_query ->
      forall docs, documents st = Some docs -> documents upd = Some docs).
Proof.
  intros H. destruct n; cbn [node_function] in H.
  - unfold _web_search in H. invert_run H. injection H as <- _.
    cbn. repeat split; eauto. intros [E | E]; discriminate.
  - unfold _retrieve in H. invert_run H. injection H as <- _.
    cbn. repeat split; eauto. intros [E | E]; discriminate.
  - unfold _grade_documents in H. invert_run H. injection H as <- _.
    cbn. repeat split; eauto. intros [E | E]; discriminate.
  - unfold _generate in H. invert_run H. injection H as <- _.
    cbn. repeat split; eauto. congruence.
  - unfold _transform_query in H. invert_run H. injection H as <- _.
    cbn. repeat split; eauto. intros _ docs E. rewrite E. reflexivity.
Qed.

Lemma merge_question (st upd : GraphState) :
  question upd = question st -> question (merge st upd) = question st.
Proof. intros H. cbn. rewrite H. destruct (question st); reflexivity. Qed.

Lemma run_keeps_question (limit : nat) :
  forall (n : node) (st : GraphState) (w : W),
    question (final (fst (run C limit n st w))) = question st
    /\ Forall (fun ev => question (snd ev) = question st)
         (events (fst (run C limit n st w))).
Proof.
  induction limit as [| limit IH]; intros n st w; [split; [reflexivity | constructor] |].
  destruct (run_cases C limit n st w)
    as [[e [w' [_ ->]]] | [[u [w' [Hs ->]]] | [u [n' [w' [Hs ->]]]]]];
    cbn [fst final events after_event].
  - split; [reflexivity | constructor].
  - destruct (step_inv C _ _ _ _ _ _ _ Hs) as [w1 [Hn _]].
    destruct (node_function_writes _ _ _ _ _ Hn) as [Hq _].
    split; [exact (merge_question st u Hq) |].
    constructor; [exact Hq | constructor].
  - destruct (step_inv C _ _ _ _ _ _ _ Hs) as [w1 [Hn _]].
    destruct (node_function_writes _ _ _ _ _ Hn) as [Hq _].
    destruct (IH n' (merge st u) w') as [Hf Hall].
    rewrite (merge_question st u Hq) in Hf, Hall.
    split; [exact Hf |]. constructor; [exact Hq | exact Hall].
Qed.

Lemma run_keeps_documents (limit : nat) :
  forall (n : node) (st : GraphState) (w : W),
    (exists docs, documents st = Some docs) ->
    exists docs, documents (final (fst (run C limit n st w))) = Some docs.
Proof.
  induction limit as [| limit IH]; intros n st w Hd; [exact Hd |].
  destruct (run_cases C limit n st w)
    as [[e [w' [_ ->]]] | [[u [w' [Hs ->]]] | [u [n' [w' [Hs ->]]]]]];
    cbn [fst final events after_event].
  - exact Hd.
  - destruct (step_inv C _ _ _ _ _ _ _ Hs) as [w1 [Hn _]].
    destruct (node_function_writes _ _ _ _ _ Hn) as [_ [_ [[docs Hu] _]]].
    exists docs. cbn. rewrite Hu. reflexivity.
  - destruct (step_inv C _ _ _ _ _ _ _ Hs) as [w1 [Hn _]].
    destruct (node_function_writes _ _ _ _ _ Hn) as [_ [_ [[docs Hu] _]]].
    apply IH. exists docs. cbn. rewrite Hu. reflexivity.
Qed.

Lemma run_documents_after_event (limit : nat) (n : node) (st : GraphState) (w : W) :
  events (fst (run C limit n st w)) <> [] ->
  exists docs, documents (final (fst (run C limit n st w))) = Some docs.
Proof.
  destruct limit as [| limit]; [intros H; contradiction H; reflexivity |].
  destruct (run_cases C limit n st w)
    as [[e [w' [_ ->]]] | [[u [w' [Hs ->]]] | [u [n' [w' [Hs ->]]]]]];
    cbn [fst final events after_event]; intros Hne.
  - contradiction Hne. reflexivity.
  - destruct (step_inv C _ _ _ _ _ _ _ Hs) as [w1 [Hn _]].
    destruct (node_function_writes _ _ _ _ _ Hn) as [_ [_ [[docs Hu] _]]].
    exists docs. cbn. rewrite Hu. reflexivity.
  - destruct (step_inv C _ _ _ _ _ _ _ Hs) as [w1 [Hn _]].
    destruct (node_function_writes _ _ _ _ _ Hn) as [_ [_ [[docs Hu] _]]].
    apply run_keeps_documents. exists docs. cbn. rewrite Hu. reflexivity.
Qed.

Lemma run_generation_before_generate (limit : nat) :
  forall (n : node) (st : GraphState) (w : W),
    ~ In generate (trace (fst (run C limit n st w))) ->
    generation (final (fst (run C limit n st w))) = generation st.
Proof.
  induction limit as [| limit IH]; intros n st w; [reflexivity |].
  destruct (run_cases C limit n st w)
    as [[e [w' [_ ->]]] | [[u [w' [Hs ->]]] | [u [n' [w' [Hs ->]]]]]];
    unfold trace; cbn [fst final events after_event map]; intros Hnot.
  - reflexivity.
  - destruct (step_inv C _ _ _ _ _ _ _ Hs) as [w1 [_ [_ Ht]]].
    apply next_target_end in Ht. subst n. contradiction Hnot. left. reflexivity.
  - destruct (step_inv C _ _ _ _ _ _ _ Hs) as [w1 [Hn _]].
    destruct (node_function_writes _ _ _ _ _ Hn) as [_ [_ [_ [Hg _]]]].
    rewrite IH by (intros Hin; apply Hnot; right; exact Hin).
    cbn. rewrite Hg; [reflexivity |].
    intros ->. apply Hnot. left. reflexivity.
Qed.

End Writes.

(** X8. State invariants of an execution, whatever the inputs and the
    oracles: the question is never changed, neither in the final state nor in
    any update streamed; once a node has run the state holds a list of
    documents; and as long as [generate] has not run the generation is the
    one of the inputs. *)
Theorem execution_keeps_question_and_documents
  {W : Type} (C : Collaborators W) (limit : nat) (inputs : GraphState) (w : W) :
  let ex := fst (app C limit inputs w) in
  question (final ex) = question inputs
  /\ Forall (fun ev => question (snd ev) = question inputs) (events ex)
  /\ (events ex <> [] -> exists docs, documents (final ex) = Some docs)
  /\ (~ In generate (trace ex) -> generation (final ex) = generation inputs).
Proof.
  intros ex. subst ex.
  destruct (app_cases C limit inputs w) as [[e [w' ->]] | [n [w' [_ [_ ->]]]]].
  - cbn [fst final events]. repeat split.
    + constructor.
    + intros H. contradiction H. reflexivity.
  - destruct (run_keeps_question C limit n inputs w') as [Hq Hall].
    repeat split.
    + exact Hq.
    + exact Hall.
    + apply run_documents_after_event.
    + apply run_generation_before_generate.
Qed.

Lemma execution_keeps_question_and_documents_witness :
  exists docs,
    documents (final (fst (app Scripted.collaborators 1 (query_simple_inputs "why")
                             ["web_search"; "boom"])))
    = Some docs.
Proof.
  refine (proj1 (proj2 (proj2
    (execution_keeps_question_and_documents Scripted.collaborators 1
       (query_simple_inputs "why") ["web_search"; "boom"]))) _).
  discriminate.
Defined.

(** ** The shape of a trace *)

Section Shape.

Context {W : Type}.
Variable C : Collaborators W.

Lemma next_target_edge (n n' : node) (st : GraphState) (w w' : W) :
  next_target C n st w = (Ok (Node n'), w') -> graph_edge n n' = true.
Proof.
  intros H. destruct n; cbn [next_target] in H.
  - apply ret_inv in H. destruct H as [E _]. injection E as ->. reflexivity.
  - apply ret_inv in H. destruct H as [E _]. injection E as ->. reflexivity.
  - apply bind_inv in H. destruct H as [l [w1 [_ H]]].
    apply resolve_inv in H. destruct H as [l' [_ [H _]]].
    apply decide_path_map_targets in H.
    destruct H as [E | E]; injection E as ->; reflexivity.
  - apply bind_inv in H. destruct H as [l [w1 [_ H]]].
    apply resolve_inv in H. destruct H as [l' [_ [H _]]].
    apply grade_path_map_targets in H.
    destruct H as [E | [E | E]]; try discriminate; injection E as ->; reflexivity.
  - apply ret_inv in H. destruct H as [E _]. injection E as ->. reflexivity.
Qed.

Lemma run_follows_edges (limit : nat) :
  forall (n : node) (st : GraphState) (w : W),
    trace (fst (run C limit n st w)) = []
    \/ exists tl, trace (fst (run C limit n st w)) = n :: tl
                  /\ follows_edges (n :: tl) = true.
Proof.
  induction limit as [| limit IH]; intros n st w; [left; reflexivity |].
  destruct (run_cases C limit n st w)
    as [[e [w' [_ ->]]] | [[u [w' [Hs ->]]] | [u [n' [w' [Hs ->]]]]]].
  - left. reflexivity.
  - right. exists []. split; reflexivity.
  - right. destruct (step_inv C _ _ _ _ _ _ _ Hs) as [w1 [_ [_ Ht]]].
    pose proof (next_target_edge _ _ _ _ _ Ht) as He.
    unfold trace. cbn [fst events after_event map].
    destruct (IH n' (merge st u) w') as [E | [tl [E Htl]]];
      unfold trace in E; rewrite E.
    + exists []. split; reflexivity.
    + exists (n' :: tl). split; [reflexivity |].
      cbn [follows_edges]. rewrite He. exact Htl.
Qed.



End Shape.



(** X10. The trace of an execution is a path of the graph: each node that
    ran is followed by a node one of its edges leads to, whatever the
    oracles answer.  So [retrieve] and [grade_documents] never run after a
    [transform_query], and [transform_query] is always followed by
    [generate]. *)
Theorem trace_follows_graph_edges
  {W : Type} (C : Collaborators W) (limit : nat) (inputs : GraphState) (w : W) :
  follows_edges (trace (fst (app C limit inputs w))) = true
  /\ (forall pre post n,
        trace (fst (app C limit inputs w))
        = (pre ++ transform_query :: n :: post)%list -> n = generate).
Proof.
  assert (Hpath : follows_edges (trace (fst (app C limit inputs w))) = true).
  { destruct (app_cases C limit inputs w) as [[e [w' ->]] | [n [w' [_ [_ ->]]]]].
    - reflexivity.
    - destruct (run_follows_edges C limit n inputs w') as [-> | [tl [-> H]]];
        [reflexivity | exact H]. }
  split; [exact Hpath |].
  intros pre post n E. rewrite E in Hpath. clear E.
  induction pre as [| p pre IH].
  - cbn in Hpath. apply andb_prop in Hpath. destruct Hpath as [He _].
    destruct n; try discriminate. reflexivity.
  - apply IH. rewrite <- app_comm_cons in Hpath.
    destruct (pre ++ transform_query :: n :: post)%list eqn:El.
    + destruct pre; discriminate.
    + cbn [follows_edges] in Hpath. apply andb_prop in Hpath. apply Hpath.
Qed.

Lemma trace_follows_graph_edges_witness :
  trace (fst (app Scripted.collaborators 25 (query_inputs "why")
                ["vectorstore"; "no"; "no"; "answer"; "yes"; "yes"]))
  = ([retrieve; grade_documents] ++ transform_query :: generate :: [])%list
  /\ generate = generate.
Proof.
  split; [reflexivity |].
  exact (proj2 (trace_follows_graph_edges Scripted.collaborators 25
                  (query_inputs "why")
                  ["vectorstore"; "no"; "no"; "answer"; "yes"; "yes"])
           [retrieve; grade_documents] [] generate eq_refl).
Defined.

(** ** What [WebSearcher.search] makes of the tool's answer *)

Lemma str_join_strings {W : Type} (sep : string) (cs : list string) (w : W) :
  str_join sep (map PStr cs) w = (Ok (String.concat sep cs), w).
Proof.
  induction cs as [| c cs IH]; [reflexivity |].
  destruct cs as [| c' cs]; [reflexivity |].
  cbn [map] in *.
  change (str_join sep (PStr c :: PStr c' :: map PStr cs) w)
    with (bind (str_join sep (PStr c' :: map PStr cs))
            (fun tl => ret (c ++ sep ++ tl)) w).
  unfold bind. rewrite IH. reflexivity.
Qed.

Lemma map_content_has_content {W : Type} (C : Collaborators W)
  (l : list pyval) (cs : list string) (w : W) :
  Forall2 has_content l cs ->
  map_content C l w = (Ok (map PStr cs), w).
Proof.
  induction 1 as [| d c l cs [items [-> Hget]] _ IH]; [reflexivity |].
  cbn [map_content content_of map]. rewrite bind_ret.
  unfold bind. rewrite IH. cbn [ret]. rewrite Hget. reflexivity.
Qed.

(** X11. When the tool answers with a list of dictionaries that each hold a
    text under "content", the document [search] returns is those texts joined
    by newlines, in order (the empty text for an empty list); a list of plain
    strings is joined the same way, and a plain string is taken as it is. *)
Theorem search_joins_result_contents
  {W : Type} (C : Collaborators W) (q : string) (answer : pyval) (w w1 : W) :
  web_search_tool_invoke C q w = (Ok answer, w1) ->
  (forall l cs, answer = PList l -> Forall2 has_content l cs ->
     WebSearcher_search C q w = (Ok (Document_of (String.concat newline cs)), w1))
  /\ (forall ss, answer = PList (map PStr ss) ->
      WebSearcher_search C q w = (Ok (Document_of (String.concat newline ss)), w1))
  /\ (forall s, answer = PStr s ->
      WebSearcher_search C q w = (Ok (Document_of s), w1)).
Proof.
  intros Htool. split; [| split].
  - intros l cs -> Hl.
    unfold WebSearcher_search, try_except, WebSearcher_search_body.
    rewrite (bind_ok _ _ _ _ _ Htool).
    destruct Hl as [| d c l cs Hd Hl].
    + reflexivity.
    + pose proof (map_content_has_content C (d :: l) (c :: cs) w1
                    (Forall2_cons _ _ Hd Hl)) as Hm.
      destruct Hd as [items [-> _]].
      unfold bind at 1. unfold bind at 1. rewrite Hm.
      rewrite str_join_strings. reflexivity.
  - intros ss ->.
    unfold WebSearcher_search, try_except, WebSearcher_search_body.
    rewrite (bind_ok _ _ _ _ _ Htool).
    assert (Hj : forall w' : W, str_join newline
                   (map (fun d => PStr (py_str C d)) (map PStr ss)) w'
                 = (Ok (String.concat newline ss), w')).
    { intros w'. rewrite map_map. cbn [py_str]. apply str_join_strings. }
    destruct ss as [| s ss].
    + reflexivity.
    + cbn [map]. cbn [map] in Hj. unfold bind. rewrite Hj. reflexivity.
  - intros s ->.
    unfold WebSearcher_search, try_except, WebSearcher_search_body.
    rewrite (bind_ok _ _ _ _ _ Htool). reflexivity.
Qed.

Lemma search_joins_result_contents_witness :
  WebSearcher_search
    (with_answer_grader Scripted.collaborators (fun _ _ => ret "yes"))
    "why" ["one page"; "left"]
  = (Ok (Document_of "one page"), ["left"]).
Proof.
  exact (proj2 (proj2
    (search_joins_result_contents
       (with_answer_grader Scripted.collaborators (fun _ _ => ret "yes"))
       "why" (PStr "one page") ["one page"; "left"] ["left"] eq_refl))
    "one page" eq_refl).
Defined.

(** Two results with a "content" entry, the second with further keys. *)
Example search_two_results :
  let C := {| router_invoke := fun _ => ret "web_search";
              retriever_invoke := None;
              web_search_tool_invoke := fun _ =>
                ret (PList [PDict [("url", PStr "u"); ("content", PStr "first")];
                            PDict [("content", PStr "second"); ("text", PStr "t")]]);
              chain_invoke := fun _ _ => ret "";
              document_grader_invoke := fun _ _ => ret "yes";
              hallucination_grader_invoke := fun _ _ => ret "yes";
              answer_grader_invoke := fun _ _ => ret "yes";
              py_repr := fun _ => "<object>" |} in
  WebSearcher_search C "why" tt
  = (Ok (Document_of ("first" ++ newline ++ "second")), tt).
Proof. reflexivity. Qed.

(** ** The life of the vector store *)

(** X12. Retrieval is ready exactly after a set-up that got as far as the
    retriever: on a new object the graph's retrieval raises the "not
    initialized" [ValueError]; when building the store and its retriever
    succeeds, [setup_vectorstore] leaves both in the object and saves the
    store under the object's path, and retrieval then is the retriever's
    search; if only the saving raises, the error is raised but the object
    keeps store and retriever. *)
Theorem setup_vectorstore_makes_retrieval_ready
  {W VS : Type} (F : @Retriever.FAISS W VS) (C : Collaborators W)
  (self : Retriever.t) (docs : list Document) (vs : VS)
  (r : string -> M W (list Document)) (w w1 w2 : W) :
  Retriever.from_documents F docs w = (Ok vs, w1) ->
  Retriever.as_retriever F vs RETRIEVAL_K w1 = (Ok r, w2) ->
  let self' := {| Retriever.vectorstore_path := Retriever.vectorstore_path self;
                  Retriever.vectorstore := Some vs;
                  Retriever.retriever := Some r |} in
  (forall path q w0,
      GroqDocumentRetriever_retrieve
        (with_retriever C (Retriever.retriever (@Retriever.init W VS path))) q w0
      = (Raise (ValueError
           "Vectorstore not initialized. Call create_vectorstore() or load_vectorstore() first."),
         w0))
  /\ Retriever.create_vectorstore F docs (self, w) = (Ok tt, (self', w2))
  /\ (forall w3,
        Retriever.save_local F vs (Retriever.vectorstore_path self) w2 = (Ok tt, w3) ->
        Retriever.setup_vectorstore F docs (self, w) = (Ok tt, (self', w3)))
  /\ (forall e w3,
        Retriever.save_local F vs (Retriever.vectorstore_path self) w2 = (Raise e, w3) ->
        Retriever.setup_vectorstore F docs (self, w) = (Raise e, (self', w3)))
  /\ (forall q w0,
        GroqDocumentRetriever_retrieve
          (with_retriever C (Retriever.retriever self')) q w0
        = r q w0).
Proof.
  intros Hfrom Has self'.
  assert (Hcreate : Retriever.create_vectorstore F docs (self, w)
                    = (Ok tt, (self', w2))).
  { unfold Retriever.create_vectorstore, bind, lift. cbn [fst snd].
    rewrite Hfrom. cbn. rewrite Has. reflexivity. }
  repeat split.
  - exact Hcreate.
  - intros w3 Hsave. unfold Retriever.setup_vectorstore.
    rewrite (bind_ok _ _ _ _ _ Hcreate).
    unfold Retriever.save_vectorstore, bind, lift. cbn. rewrite Hsave. reflexivity.
  - intros e w3 Hsave. unfold Retriever.setup_vectorstore.
    rewrite (bind_ok _ _ _ _ _ Hcreate).
    unfold Retriever.save_vectorstore, bind, lift. cbn. rewrite Hsave. reflexivity.
Qed.

(** X13. [load_vectorstore] turns every failure into a [FileNotFoundError]
    that names the path and the cause.  When reading the store fails the
    object is left as it was, so a new object still has no retriever; when
    reading succeeds and the retriever is built, the object holds both. *)
Theorem load_vectorstore_failure_is_file_not_found
  {W VS : Type} (F : @Retriever.FAISS W VS) (self : Retriever.t) (w w1 : W) :
  (forall e,
      Retriever.load_local F (Retriever.vectorstore_path self) w = (Raise e, w1) ->
      Retriever.load_vectorstore F (self, w)
      = (Raise (FileNotFoundError
                  ("Could not load vectorstore from "
                   ++ Retriever.vectorstore_path self ++ ": " ++ exn_str e)),
         (self, w1)))
  /\ (forall vs e w2,
      Retriever.load_local F (Retriever.vectorstore_path self) w = (Ok vs, w1) ->
      Retriever.as_retriever F vs RETRIEVAL_K w1 = (Raise e, w2) ->
      Retriever.load_vectorstore F (self, w)
      = (Raise (FileNotFoundError
                  ("Could not load vectorstore from "
                   ++ Retriever.vectorstore_path self ++ ": " ++ exn_str e)),
         ({| Retriever.vectorstore_path := Retriever.vectorstore_path self;
             Retriever.vectorstore := Some vs;
             Retriever.retriever := Retriever.retriever self |}, w2)))
  /\ (forall vs r w2,
      Retriever.load_local F (Retriever.vectorstore_path self) w = (Ok vs, w1) ->
      Retriever.as_retriever F vs RETRIEVAL_K w1 = (Ok r, w2) ->
      Retriever.load_vectorstore F (self, w)
      = (Ok tt,
         ({| Retriever.vectorstore_path := Retriever.vectorstore_path self;
             Retriever.vectorstore := Some vs;
             Retriever.retriever := Some r |}, w2))).
Proof.
  split; [| split].
  - intros e Hload.
    unfold Retriever.load_vectorstore, try_except, bind, lift, get_self.
    cbn [fst snd]. rewrite Hload. reflexivity.
  - intros vs e w2 Hload Has.
    unfold Retriever.load_vectorstore, try_except, bind, lift, get_self.
    cbn [fst snd]. rewrite Hload. cbn. rewrite Has. reflexivity.
  - intros vs r w2 Hload Has.
    unfold Retriever.load_vectorstore, try_except, bind, lift, get_self.
    cbn [fst snd]. rewrite Hload. cbn. rewrite Has. reflexivity.
Qed.

Lemma setup_vectorstore_makes_retrieval_ready_witness :
  Retriever.setup_vectorstore in_memory_store Scripted.two_passages
    (Retriever.init VECTOR_STORE_PATH, ["left"])
  = (Ok tt,
     ({| Retriever.vectorstore_path := VECTOR_STORE_PATH;
         Retriever.vectorstore := Some Scripted.two_passages;
         Retriever.retriever := Some (fun _ => ret Scripted.two_passages) |},
      ["left"])).
Proof.
  exact (proj1 (proj2 (proj2
    (setup_vectorstore_makes_retrieval_ready in_memory_store Scripted.collaborators
       (Retriever.init VECTOR_STORE_PATH) Scripted.two_passages
       Scripted.two_passages (fun _ => ret Scripted.two_passages)
       ["left"] ["left"] ["left"] eq_refl eq_refl)))
    ["left"] eq_refl).
Defined.

Lemma load_vectorstore_failure_is_file_not_found_witness :
  Retriever.load_vectorstore in_memory_store
    (Retriever.init VECTOR_STORE_PATH, ["missing"; "left"])
  = (Raise (FileNotFoundError
       "Could not load vectorstore from ./data/vectorstore: no such file"),
     (Retriever.init VECTOR_STORE_PATH, ["left"])).
Proof.
  exact (proj1
    (load_vectorstore_failure_is_file_not_found in_memory_store
       (Retriever.init VECTOR_STORE_PATH) ["missing"; "left"] ["left"])
    (mkExn "RuntimeError" "no such file") eq_refl).
Defined.

(** ** [SimpleEvaluator.evaluate_batch] *)

Section Batch.

Context {W T : Type}.
Variable C : Collaborators W.
Variable time_time : M W T.
Variable elapsed : T -> T -> T.
Variable split_len : string -> nat.
Variable lower : string -> string.
Variable limit : nat.



End Batch.


(** A batch of two questions: the first is routed nowhere and skipped. *)
Example evaluate_batch_run :
  fst (Evaluator.evaluate_batch Scripted.collaborators (ret 0) Nat.sub
         (fun _ => 1) (fun s => s) 25 ["first"; "second"]
         ([], ["nowhere"; "nowhere"; "web_search"; "web_search"; "page";
               "based on the page"; "yes"; "yes"]))
  = Ok [Evaluator.mkMetrics "second" "based on the page" "page" "web_search"
          0 1 1 true].
Proof. reflexivity. Qed.
